(** * AmyloIC50Pred: the input pipeline of [src/app/page.jsx]

    A shallow embedding of the client logic of the [Home] component: the
    JavaScript string primitives it calls, the free-text and file
    normalizers, the submit handler with its request to the prediction
    service, the input handlers and the CSV field escaping of the export.

    Modelling conventions.
    - A JavaScript string is a list of code units, here restricted to
      U+0000..U+00FF (one [ascii] per code unit).  On that range
      [toLowerCase] and [trim] are the functions written below.
    - A JavaScript number is an integer [Z] of magnitude below 10^21; its
      [String()] is the decimal numeral.  Larger numbers, which print with an
      exponent, fractions, NaN and the infinities are outside the model.
    - What the browser and the libraries decide (the FileReader, SheetJS's
      [XLSX.read] with [sheet_to_json], [fetch]) is an explicit environment
      record; a handler returns the next view state and the list of requests
      it sent. *)

From Stdlib Require Import List Bool Arith Lia ZArith.
From Stdlib Require Import Ascii String DecimalString.
Import ListNotations.

(* [length] is the length of a list throughout. *)
Abbreviation length := Datatypes.length (only parsing).

Set Warnings "-register-all".

(** ** JavaScript strings *)

Abbreviation str := (list ascii).

(** A string literal of the source. *)
Definition lit (s : string) : str := list_ascii_of_string s.
Arguments lit s%_string.

Module JS.

Definition code (c : ascii) : nat := nat_of_ascii c.

Definition LF : ascii := ascii_of_nat 10.
Definition CR : ascii := ascii_of_nat 13.
Definition TAB : ascii := ascii_of_nat 9.
Definition DQUOTE : ascii := ascii_of_nat 34.
Definition COMMA : ascii := ascii_of_nat 44.
Definition SEMICOLON : ascii := ascii_of_nat 59.
Definition DOT : ascii := ascii_of_nat 46.

Definition char_eqb (a b : ascii) : bool := Ascii.eqb a b.

Fixpoint str_eqb (a b : str) : bool :=
  match a, b with
  | [], [] => true
  | x :: a', y :: b' => char_eqb x y && str_eqb a' b'
  | _, _ => false
  end.

(** WhiteSpace and LineTerminator code units below U+0100: TAB, LF, VT, FF,
    CR, SPACE and NO-BREAK SPACE. *)
Definition isWhiteSpace (c : ascii) : bool :=
  let n := code c in
  ((9 <=? n) && (n <=? 13)) || (n =? 32) || (n =? 160).

Fixpoint trimStart (s : str) : str :=
  match s with
  | [] => []
  | c :: t => if isWhiteSpace c then trimStart t else s
  end.

Definition trimEnd (s : str) : str := rev (trimStart (rev s)).

(** [s.trim()] *)
Definition trim (s : str) : str := trimEnd (trimStart s).

(** Simple lowercase mapping: A-Z, and the Latin-1 capitals U+00C0..U+00DE
    except the multiplication sign U+00D7. *)
Definition lowerChar (c : ascii) : ascii :=
  let n := code c in
  if ((65 <=? n) && (n <=? 90))
     || ((192 <=? n) && (n <=? 222) && negb (n =? 215))
  then ascii_of_nat (n + 32) else c.

(** [s.toLowerCase()] *)
Definition toLowerCase (s : str) : str := map lowerChar s.

(** [s.startsWith(p)] *)
Fixpoint startsWith (p s : str) : bool :=
  match p, s with
  | [], _ => true
  | _ :: _, [] => false
  | x :: p', y :: s' => char_eqb x y && startsWith p' s'
  end.

(** [s.endsWith(p)] *)
Definition endsWith (p s : str) : bool := startsWith (rev p) (rev s).

(** [s.includes(sub)] *)
Fixpoint includes (sub s : str) : bool :=
  startsWith sub s ||
  match s with
  | [] => false
  | _ :: t => includes sub t
  end.

(** [s.includes(c)] for a one-character needle. *)
Definition includesChar (c : ascii) (s : str) : bool := existsb (char_eqb c) s.

(** [s.lastIndexOf(c)]: the last index of [c], or -1. *)
Fixpoint lastIndexOf_from (c : ascii) (s : str) (i : Z) (found : Z) : Z :=
  match s with
  | [] => found
  | x :: t => lastIndexOf_from c t (i + 1) (if char_eqb x c then i else found)
  end.

Definition lastIndexOf (c : ascii) (s : str) : Z := lastIndexOf_from c s 0 (-1).

(** [s.substring(start)]: a negative start counts as 0. *)
Definition substring (start : Z) (s : str) : str :=
  skipn (Z.to_nat (Z.max 0 start)) s.

(** Adds a code unit to the piece that is being read. *)
Definition push (c : ascii) (pieces : list str) : list str :=
  match pieces with
  | [] => [[c]]
  | p :: ps => (c :: p) :: ps
  end.

(** [s.split(/[...]/)] for a character class [d]: a cut at every code unit
    of the class; the empty string gives one empty piece. *)
Fixpoint splitClass (d : ascii -> bool) (s : str) : list str :=
  match s with
  | [] => [[]]
  | c :: t => if d c then [] :: splitClass d t else push c (splitClass d t)
  end.

(** [s.split(/[...]+/)]: a cut at every maximal run of code units of the
    class.  [inRun] says that the code unit before [s] was of the class. *)
Fixpoint splitRuns_from (d : ascii -> bool) (inRun : bool) (s : str) : list str :=
  match s with
  | [] => [[]]
  | c :: t =>
      if d c then
        if inRun then splitRuns_from d true t else [] :: splitRuns_from d true t
      else push c (splitRuns_from d false t)
  end.

Definition splitRuns (d : ascii -> bool) (s : str) : list str :=
  splitRuns_from d false s.

(** [s.split(/\r?\n/)]: a cut at every LF, which takes a CR just before it. *)
Fixpoint splitLines (s : str) : list str :=
  match s with
  | [] => [[]]
  | c :: t =>
      if char_eqb c LF then [] :: splitLines t
      else
        match t with
        | c' :: t' =>
            if char_eqb c CR && char_eqb c' LF then [] :: splitLines t'
            else push c (splitLines t)
        | [] => [[c]]
        end
  end.

(** [pieces.join(sep)] *)
Fixpoint join (sep : str) (pieces : list str) : str :=
  match pieces with
  | [] => []
  | [p] => p
  | p :: ps => p ++ sep ++ join sep ps
  end.

(** The decimal numeral of an integer, as [String(n)] prints it below
    10^21. *)
Definition decimal (n : Z) : str :=
  list_ascii_of_string (NilZero.string_of_int (Z.to_int n)).

(** *** Values *)

Inductive value : Type :=
| VUndefined
| VNull
| VBool (b : bool)
| VNum (n : Z)
| VStr (s : str)
| VArr (items : list value)
| VObj (fields : list (str * value)).

(** ToBoolean *)
Definition truthy (v : value) : bool :=
  match v with
  | VUndefined | VNull => false
  | VBool b => b
  | VNum n => negb (n =? 0)%Z
  | VStr s => negb (str_eqb s [])
  | VArr _ | VObj _ => true
  end.

(** [String(v)] *)
Fixpoint toString (v : value) : str :=
  match v with
  | VUndefined => lit "undefined"
  | VNull => lit "null"
  | VBool true => lit "true"
  | VBool false => lit "false"
  | VNum n => decimal n
  | VStr s => s
  | VArr items =>
      join [COMMA]
        (map (fun x => match x with
                       | VUndefined | VNull => []
                       | _ => toString x
                       end) items)
  | VObj _ => lit "[object Object]"
  end.

(** [a || b] *)
Definition or_else (a b : value) : value := if truthy a then a else b.

(** [o[k]] on an object given by its own properties, each key listed
    once. *)
Fixpoint lookup (k : str) (fields : list (str * value)) : value :=
  match fields with
  | [] => VUndefined
  | (k', v) :: rest => if str_eqb k k' then v else lookup k rest
  end.

(** [row[i]] on an array; a hole or an index past the end is [undefined]. *)
Definition index (row : list value) (i : nat) : value := nth i row VUndefined.

End JS.

Import JS.

(** [v.k]: the property [k] of a value that is not [null] or [undefined];
    only an object has own properties here. *)
Definition get (v : value) (k : str) : value :=
  match v with
  | VObj fields => lookup k fields
  | _ => VUndefined
  end.

(** ** What a function hands back: a value, or a thrown [Error] *)

Inductive result (A : Type) : Type :=
| Ok (a : A)
| Throw (message : str).
Arguments Ok {A} a.
Arguments Throw {A} message.

(** ** The environment of the component *)

Record File : Type := mkFile {
  file_name : str;          (* file.name *)
  file_type : str           (* file.type *)
}.

(** The FileReader: [onload] with the content, or [onerror]. *)
Inductive read_event : Type :=
| Loaded (content : str)
| ReadError (message : str).

(** [XLSX.read] followed by [sheet_to_json] of the first sheet with
    [header: 1]: the library throws, the workbook has no sheet, or the sheet
    is an array of rows, each an array of raw cell values. *)
Inductive workbook : Type :=
| XlsxThrows
| NoSheets
| FirstSheet (localJsonSheet : list (list value)).

(** [res.json()]: the decoded body, or a rejection. *)
Inductive body : Type :=
| Json (data : value)
| NotJson (message : str).

(** [fetch]: a rejection, or a response with its status and body. *)
Inductive response : Type :=
| FetchRejected (message : str)
| Response (status : Z) (b : body).

Record Env : Type := mkEnv {
  reader : File -> read_event;
  xlsx_read : str -> bool -> workbook;     (* content, [type: 'binary'] *)
  service : list str -> response           (* the POST to API_URL *)
}.

(** [res.ok] *)
Definition ok (status : Z) : bool := (200 <=? status)%Z && (status <=? 299)%Z.

(** ** The view state of [Home] *)

Record State : Type := mkState {
  textareaValue : str;
  selectedFile : option File;
  fileName : str;
  results : value;              (* [null] is [VNull] *)
  isLoading : bool;
  inputError : str
}.

Definition setTextareaValue (v : str) (st : State) : State :=
  mkState v (selectedFile st) (fileName st) (results st) (isLoading st) (inputError st).
Definition setSelectedFile (f : option File) (st : State) : State :=
  mkState (textareaValue st) f (fileName st) (results st) (isLoading st) (inputError st).
Definition setFileName (n : str) (st : State) : State :=
  mkState (textareaValue st) (selectedFile st) n (results st) (isLoading st) (inputError st).
Definition setResults (r : value) (st : State) : State :=
  mkState (textareaValue st) (selectedFile st) (fileName st) r (isLoading st) (inputError st).
Definition setIsLoading (b : bool) (st : State) : State :=
  mkState (textareaValue st) (selectedFile st) (fileName st) (results st) b (inputError st).
Definition setInputError (e : str) (st : State) : State :=
  mkState (textareaValue st) (selectedFile st) (fileName st) (results st) (isLoading st) e.

(** A sequence of setter calls, in the order of the source. *)
Definition calls (fs : list (State -> State)) (st : State) : State :=
  fold_left (fun s f => f s) fs st.

(** The state of the first render: the [useState] initial values. *)
Definition initial : State := mkState [] None [] VNull false [].

(** ** Configuration *)

Definition MAX_COMPOUNDS : nat := 20.

(** ** [readFileContent] *)

Definition readFileContent (env : Env) (file : File) : result (str * bool) :=
  match reader env file with
  | Loaded content =>
      Ok (content,
          negb (endsWith (lit ".csv") (toLowerCase (file_name file)))
          && negb (str_eqb (file_type file) (lit "text/csv")))
  | ReadError message => Throw (lit "File reading error: " ++ message)
  end.

(** ** [parseFileContent] *)

(** The header test both branches apply to [firstRowFirstCell]. *)
Definition headerLike (firstRowFirstCell : str) : bool :=
  (includes (lit "smiles") firstRowFirstCell
   || includes (lit "compound") firstRowFirstCell
   || includes (lit "molecule") firstRowFirstCell)
  && (length firstRowFirstCell <? 50).

(** The predicate of the final [filter] of both branches. *)
Definition keep (s : str) : bool :=
  truthy (VStr s)
  && (2 <? length s)
  && negb (includes (lit "smiles") (toLowerCase s))
  && negb (includes (lit "compound") (toLowerCase s)).

(** The [try] block once the sheet is there (lines 137-149). *)
Definition sheet_firstRowFirstCell (localJsonSheet : list (list value)) : str :=
  toLowerCase (trim (toString (or_else (index (nth 0 localJsonSheet []) 0) (VStr [])))).

Definition sheet_startIndex (localJsonSheet : list (list value)) : nat :=
  if (1 <? length localJsonSheet) && headerLike (sheet_firstRowFirstCell localJsonSheet)
  then 1 else 0.

(** [(row && row[0]) ? String(row[0]).trim() : ''] of line 147; a row is an
    array, which is truthy. *)
Definition sheet_cell (row : list value) : str :=
  if truthy (index row 0) then trim (toString (index row 0)) else [].

Definition sheet_smiles (localJsonSheet : list (list value)) : list str :=
  if 0 <? length localJsonSheet then
    filter keep (map sheet_cell (skipn (sheet_startIndex localJsonSheet) localJsonSheet))
  else [].

(** The [catch] block for a CSV file (lines 153-165). *)
Definition fieldSeparator (c : ascii) : bool :=
  char_eqb c COMMA || char_eqb c SEMICOLON || char_eqb c TAB.

(** [row.split(/[,;\t]/)[0]] *)
Definition firstField (row : str) : str := nth 0 (splitClass fieldSeparator row) [].

Definition lines_firstRowFirstCell (rows : list str) : str :=
  toLowerCase (trim (firstField (nth 0 rows []))).

Definition lines_startIndex (rows : list str) : nat :=
  if (1 <? length rows) && headerLike (lines_firstRowFirstCell rows) then 1 else 0.

Definition lines_cell (row : str) : str :=
  if truthy (VStr (firstField row)) then trim (firstField row) else [].

Definition lines_smiles (fileContent : str) : list str :=
  let rows := splitLines fileContent in
  if 0 <? length rows then
    filter keep (map lines_cell (skipn (lines_startIndex rows) rows))
  else [].

Definition parseError : str :=
  lit "Could not parse file. Ensure SMILES are in the first column of a valid Excel (xlsx, xls) or CSV file.".

(** The test of the [catch] block (line 152). *)
Definition csvFallback (isBinary : bool) (fileName : str) : bool :=
  negb isBinary && endsWith (lit ".csv") (toLowerCase fileName).

Definition parseFileContent (env : Env) (fileContent : str) (isBinary : bool)
    (fileName : str) : result (list str) :=
  match xlsx_read env fileContent isBinary with
  | FirstSheet localJsonSheet => Ok (sheet_smiles localJsonSheet)
  | XlsxThrows | NoSheets =>
      if csvFallback isBinary fileName then Ok (lines_smiles fileContent)
      else Throw parseError
  end.

(** ** The handlers *)

Definition allowedTypes : list str := [lit ".csv"; lit ".xls"; lit ".xlsx"].

Definition fileExtension (name : str) : str :=
  toLowerCase (substring (lastIndexOf DOT name) name).

(** [handleFileChange]; the argument is [event.target.files[0]]. *)
Definition handleFileChange (file : option File) (st : State) : State :=
  match file with
  | Some f =>
      if negb (existsb (str_eqb (fileExtension (file_name f))) allowedTypes) then
        calls [setInputError (lit "Invalid file type. Please upload CSV, XLS, or XLSX.");
               setSelectedFile None; setFileName []] st
      else
        calls [setSelectedFile (Some f); setFileName (file_name f);
               setTextareaValue []; setInputError []; setResults VNull] st
  | None => calls [setSelectedFile None; setFileName []] st
  end.

(** The [onChange] of the textarea (line 403). *)
Definition handleTextChange (v : str) (st : State) : State :=
  calls [setTextareaValue v; setSelectedFile None; setFileName [];
         setInputError []; setResults VNull] st.

Definition clearInputs (st : State) : State :=
  calls [setTextareaValue []; setSelectedFile None; setFileName [];
         setInputError []; setResults VNull] st.

(** ** [handleSubmit] *)

Definition newlineOrComma (c : ascii) : bool := char_eqb c LF || char_eqb c COMMA.

(** [textareaValue.split(/[\n,]+/).map(s => s.trim()).filter(s => s)] *)
Definition text_smiles (textareaValue : str) : list str :=
  filter (fun s => truthy (VStr s)) (map trim (splitRuns newlineOrComma textareaValue)).

(** The message of the [catch] of line 206, with its default. *)
Definition messageOf (message : str) : str :=
  if truthy (VStr message) then message else lit "Failed to process file.".

Definition noSmilesInFile : str :=
  lit "No valid SMILES found in file. Check format (SMILES in first column, optional header).".

Definition noInput : str := lit "No SMILES input. Enter in textarea or upload file.".

Definition tooMany (n : nat) : str :=
  lit "Max " ++ decimal (Z.of_nat MAX_COMPOUNDS) ++ lit " compounds allowed. You provided "
  ++ decimal (Z.of_nat n) ++ lit ".".

(** Lines 195-211: [smilesToProcess] as it reaches the checks of line 213,
    or the message of an earlier [return]. *)
Inductive assembled : Type :=
| Returned (message : str)
| Candidates (smilesToProcess : list str).

Definition assemble (env : Env) (st : State) : assembled :=
  match selectedFile st with
  | Some file =>
      match readFileContent env file with
      | Throw message => Returned (messageOf message)
      | Ok (content, isBinary) =>
          match parseFileContent env content isBinary (file_name file) with
          | Throw message => Returned (messageOf message)
          | Ok smiles =>
              if length smiles =? 0 then Returned noSmilesInFile else Candidates smiles
          end
      end
  | None =>
      if negb (str_eqb (trim (textareaValue st)) []) then
        Candidates (text_smiles (textareaValue st))
      else Candidates []
  end.

(** The message V8 gives the TypeError of [data.error] on [null]. *)
Definition nullDataMessage : str :=
  lit "Cannot read properties of null (reading 'error')".

Definition errorResult (message : value) : value := VObj [(lit "error", message)].

(** Lines 229-236: what [setResults] receives. *)
Definition resultsOf (r : response) : value :=
  match r with
  | FetchRejected message =>
      errorResult (VStr (lit "Network/Parsing Error: " ++ message))
  | Response _ (NotJson message) =>
      errorResult (VStr (lit "Network/Parsing Error: " ++ message))
  | Response status (Json data) =>
      if negb (ok status) then
        match data with
        | VNull | VUndefined =>
            errorResult (VStr (lit "Network/Parsing Error: " ++ nullDataMessage))
        | _ =>
            errorResult (or_else (get data (lit "error"))
                                 (VStr (lit "Server Error: " ++ decimal status)))
        end
      else data
  end.

(** [handleSubmit]: the next state and the requests sent to the service. *)
Definition handleSubmit (env : Env) (st : State) : State * list (list str) :=
  let st0 := calls [setIsLoading true; setResults VNull; setInputError []] st in
  match assemble env st with
  | Returned message => (calls [setInputError message; setIsLoading false] st0, [])
  | Candidates smilesToProcess =>
      if length smilesToProcess =? 0 then
        (calls [setInputError noInput; setIsLoading false] st0, [])
      else if MAX_COMPOUNDS <? length smilesToProcess then
        (calls [setInputError (tooMany (length smilesToProcess)); setIsLoading false] st0, [])
      else
        (calls [setResults (resultsOf (service env smilesToProcess)); setIsLoading false] st0,
         [smilesToProcess])
  end.

(** The API Error panel of the render (lines 476-487): the value shown in
    its paragraph, when the panel is there. *)
Definition apiErrorPanel (st : State) : option value :=
  if truthy (results st) && truthy (get (results st) (lit "error"))
  then Some (get (results st) (lit "error")) else None.

(** The [disabled] test of the Predict button (line 438). *)
Definition submitDisabled (st : State) : bool :=
  isLoading st
  || (negb (truthy (VStr (trim (textareaValue st))))
      && match selectedFile st with Some _ => false | None => true end).

(** ** The export *)

(** The global [replace] of line 253: every double quote becomes two. *)
Definition doubleQuotes (s : str) : str :=
  flat_map (fun c => if char_eqb c DQUOTE then [DQUOTE; DQUOTE] else [c]) s.

Definition needsQuoting (s : str) : bool :=
  includesChar COMMA s || includesChar DQUOTE s || includesChar LF s || includesChar CR s.

Definition escapeCSVField (field : value) : str :=
  match field with
  | VNull | VUndefined => []
  | _ =>
      let stringField := toString field in
      if needsQuoting stringField then [DQUOTE] ++ doubleQuotes stringField ++ [DQUOTE]
      else stringField
  end.

Record TableRow : Type := mkRow {
  row_id : value;
  row_smiles : value;
  row_type : value;
  row_class : value;
  row_ic50 : value
}.

Definition csvHeaders : list str :=
  [lit "ID"; lit "Compound (SMILES)"; lit "Type"; lit "Class"; lit "IC50 (nM)"].

(** [handleExportCSV]: the text of the download, or nothing for an empty
    table. *)
Definition handleExportCSV (tableData : list TableRow) : option str :=
  match tableData with
  | [] => None
  | _ =>
      Some (join [LF]
              (join [COMMA] csvHeaders
               :: map (fun item =>
                         join [COMMA]
                           [escapeCSVField (row_id item); escapeCSVField (row_smiles item);
                            escapeCSVField (row_type item); escapeCSVField (row_class item);
                            escapeCSVField (row_ic50 item)])
                      tableData))
  end.

(** The reader of one CSV field (RFC 4180): a quoted field loses its outer
    quotes and each doubled quote becomes one; a plain field is itself. *)
Fixpoint undouble (s : str) : option str :=
  match s with
  | [] => None
  | c :: t =>
      if char_eqb c DQUOTE then
        match t with
        | [] => Some []
        | c' :: t' =>
            if char_eqb c' DQUOTE then option_map (cons DQUOTE) (undouble t') else None
        end
      else option_map (cons c) (undouble t)
  end.

Definition readCSVField (s : str) : option str :=
  match s with
  | c :: t => if char_eqb c DQUOTE then undouble t else Some s
  | [] => Some []
  end.

(** ** Definitions the statements use *)

(** The specification's words for the text channel: cut the raw text at every
    newline and every comma, trim each piece, drop the empty pieces. *)
Definition spec_text_smiles (text : str) : list str :=
  filter (fun s => negb (str_eqb s [])) (map trim (splitClass newlineOrComma text)).

(** Puts [x] in front of the first piece. *)
Definition pushes (x : str) (pieces : list str) : list str :=
  match pieces with
  | [] => [x]
  | p :: ps => (x ++ p) :: ps
  end.

(** What [map trim] and the truthiness filter leave of a list of pieces. *)
Definition clean (pieces : list str) : list str :=
  filter (fun s => truthy (VStr s)) (map trim pieces).
Arguments clean : simpl never.

(** The Candidate List of a submission: what the normalizer makes of the
    selected file when there is one, of the textarea otherwise; [Throw] when
    the file cannot be read or parsed. *)
Definition candidateList (env : Env) (st : State) : result (list str) :=
  match selectedFile st with
  | Some file =>
      match readFileContent env file with
      | Throw message => Throw message
      | Ok (content, isBinary) => parseFileContent env content isBinary (file_name file)
      end
  | None => Ok (text_smiles (textareaValue st))
  end.

(** The state in which [handleSubmit] leaves its first three setter calls. *)
Definition submitting (st : State) : State :=
  calls [setIsLoading true; setResults VNull; setInputError []] st.

(** The message for an empty list, by channel. *)
Definition emptyMessage (st : State) : str :=
  match selectedFile st with
  | Some _ => noSmilesInFile
  | None => noInput
  end.

(** An environment in which nothing succeeds: no file can be read, the
    spreadsheet library throws, the network is down. *)
Definition offline : Env :=
  mkEnv (fun _ => ReadError []) (fun _ _ => XlsxThrows) (fun _ => FetchRejected []).

(** A service that answers every request with one status and one body. *)
Definition answering (status : Z) (b : body) : Env :=
  mkEnv (fun _ => ReadError []) (fun _ _ => XlsxThrows) (fun _ => Response status b).

(** ** The component as a transition system *)

Inductive event : Type :=
| FileChosen (file : option File)       (* [onChange] of the file input *)
| TextTyped (v : str)                   (* [onChange] of the textarea *)
| SubmitClicked
| ClearClicked.

(** One event; the Predict button does nothing while it is disabled. *)
Definition step (env : Env) (st : State) (e : event) : State :=
  match e with
  | FileChosen file => handleFileChange file st
  | TextTyped v => handleTextChange v st
  | SubmitClicked => if submitDisabled st then st else fst (handleSubmit env st)
  | ClearClicked => clearInputs st
  end.

Definition run (env : Env) (events : list event) : State :=
  fold_left (step env) events initial.

(** The textarea holds text; a file is selected. *)
Definition textActive (st : State) : bool := truthy (VStr (textareaValue st)).

Definition fileActive (st : State) : bool :=
  match selectedFile st with
  | Some _ => true
  | None => false
  end.

(** At most one channel holds input. *)
Definition exclusive (st : State) : Prop :=
  textActive st && fileActive st = false.

Definition allowed (f : File) : bool :=
  existsb (str_eqb (fileExtension (file_name f))) allowedTypes.

(** The text [escapeCSVField] works on: nothing for [null] and [undefined],
    [String(field)] otherwise. *)
Definition fieldText (field : value) : str :=
  match field with
  | VNull | VUndefined => []
  | _ => toString field
  end.

(** ** The file channel in the specification's words *)

(** The first cell of the first row, stringified, trimmed and lowercased. *)
Definition spec_firstCell (sheet : list (list value)) : str :=
  toLowerCase (trim (toString (index (nth 0 sheet []) 0))).

(** One row: the first-column value, stringified and trimmed; a row without
    a first-column value gives the empty string. *)
Definition spec_cell (row : list value) : str :=
  match index row 0 with
  | VUndefined | VNull => []
  | v => trim (toString v)
  end.

(** The rows after the header, their first-column values stringified and
    trimmed, and of these the ones the filter keeps. *)
Definition spec_sheet_smiles (sheet : list (list value)) : list str :=
  filter keep (map spec_cell (skipn (sheet_startIndex sheet) sheet)).

(** The first cell of the row is the boolean [false]. *)
Definition firstIsFalse (row : list value) : bool :=
  match index row 0 with
  | VBool false => true
  | _ => false
  end.

(** The first column of a sheet row as the text the parser reads from it. *)
Definition sheet_text (row : list value) : str :=
  toString (or_else (index row 0) (VStr [])).

(** An environment in which every file is read and parses to [sheet]. *)
Definition parsing (sheet : list (list value)) : Env :=
  mkEnv (fun _ => Loaded []) (fun _ _ => FirstSheet sheet) (fun _ => FetchRejected []).

(** An environment in which every file is read as [content] and the
    spreadsheet library throws. *)
Definition unparsed (content : str) : Env :=
  mkEnv (fun _ => Loaded content) (fun _ _ => XlsxThrows) (fun _ => FetchRejected []).

(** A CSV text of the examples: a header line, then CCC, C and CCO with
    other separators and white space around them. *)
Definition csvExample : str :=
  lit "SMILES,name" ++ [CR; LF] ++ lit "CCC;x" ++ [LF] ++ lit "C" ++ [LF] ++ lit " CCO ".

(** ** Definitions for the handlers' further properties *)

(** The index of the last [c] in [s], when there is one. *)
Fixpoint lastPos (c : ascii) (s : str) : option nat :=
  match s with
  | [] => None
  | x :: t =>
      match lastPos c t with
      | Some k => Some (S k)
      | None => if char_eqb x c then Some 0 else None
      end
  end.

(** The name, lowercased, ends in one of the three accepted extensions. *)
Definition acceptedName (name : str) : bool :=
  endsWith (lit ".csv") (toLowerCase name)
  || endsWith (lit ".xls") (toLowerCase name)
  || endsWith (lit ".xlsx") (toLowerCase name).

(** What holds of the state between two events: nothing is loading, and
    the file name shown is that of the selected file, which was accepted. *)
Definition settled (st : State) : Prop :=
  isLoading st = false
  /\ match selectedFile st with
     | Some f => acceptedName (file_name f) = true /\ fileName st = file_name f
     | None => fileName st = []
     end.

(** The answer of the service is a failure: no answer, a body that is not
    JSON, or a status outside 200..299. *)
Definition failed (r : response) : bool :=
  match r with
  | FetchRejected _ => true
  | Response _ (NotJson _) => true
  | Response status (Json _) => negb (ok status)
  end.

(** A code unit that can stand between or around entries of the textarea
    without making one: white space or a comma. *)
Definition blank (c : ascii) : bool := isWhiteSpace c || char_eqb c COMMA.

Definition isLF (c : ascii) : bool := char_eqb c LF.

(** A line of [splitLines] against the piece of the same text between two
    line feeds: the same, or short of one carriage return at its end. *)
Definition lineOf (line piece : str) : Prop := piece = line \/ piece = line ++ [CR].

(** ** Values that print *)

(** [String(v)] returns for this value: a property named toString of its
    own makes the conversion of an object throw, as no decoded value is a
    function, and an array prints its items. *)
Fixpoint printable (v : value) : bool :=
  match v with
  | VArr items => forallb printable items
  | VObj fields => negb (existsb (fun kv => str_eqb (fst kv) (lit "toString")) fields)
  | _ => true
  end.

(** ** A reader of CSV text *)

(** Where the reader stands: at the start of a field, inside a plain field,
    inside a quoted field, or just after a quote inside a quoted field. *)
Inductive csvMode : Type := FieldStart | InPlain | InQuoted | AfterQuote.

(** The records of a CSV text by RFC 4180, with LF between records: a comma
    ends a field and a line feed a record, except between quotes, where two
    quotes stand for one.  [field] and [record] are what was read of the
    current field and record. *)
Fixpoint readCSV_from (mode : csvMode) (field : str) (record : list str) (s : str)
  : list (list str) :=
  match s with
  | [] => [record ++ [field]]
  | c :: t =>
      match mode with
      | InQuoted =>
          if char_eqb c DQUOTE then readCSV_from AfterQuote field record t
          else readCSV_from InQuoted (field ++ [c]) record t
      | AfterQuote =>
          if char_eqb c DQUOTE then readCSV_from InQuoted (field ++ [DQUOTE]) record t
          else if char_eqb c COMMA then readCSV_from FieldStart [] (record ++ [field]) t
          else if char_eqb c LF then (record ++ [field]) :: readCSV_from FieldStart [] [] t
          else readCSV_from InPlain (field ++ [c]) record t
      | FieldStart =>
          if char_eqb c DQUOTE then readCSV_from InQuoted [] record t
          else if char_eqb c COMMA then readCSV_from FieldStart [] (record ++ [field]) t
          else if char_eqb c LF then (record ++ [field]) :: readCSV_from FieldStart [] [] t
          else readCSV_from InPlain (field ++ [c]) record t
      | InPlain =>
          if char_eqb c COMMA then readCSV_from FieldStart [] (record ++ [field]) t
          else if char_eqb c LF then (record ++ [field]) :: readCSV_from FieldStart [] [] t
          else readCSV_from InPlain (field ++ [c]) record t
      end
  end.

Definition readCSV (s : str) : list (list str) := readCSV_from FieldStart [] [] s.

(** What the reader does with a finished field in front of [rest], which is
    empty or starts with a comma or a line feed. *)
Definition finishField (field : str) (record : list str) (rest : str) : list (list str) :=
  match rest with
  | [] => [record ++ [field]]
  | c :: t =>
      if char_eqb c COMMA then readCSV_from FieldStart [] (record ++ [field]) t
      else (record ++ [field]) :: readCSV_from FieldStart [] [] t
  end.

Definition fieldEnd (rest : str) : Prop :=
  match rest with
  | [] => True
  | c :: _ => c = COMMA \/ c = LF
  end.

Definition recordEnd (rest : str) : Prop :=
  match rest with
  | [] => True
  | c :: _ => c = LF
  end.

(** One line of the export: the escaped fields with commas between. *)
Definition csvLine (fields : list value) : str :=
  join [COMMA] (map escapeCSVField fields).

(** The five fields of a table row, in the order of the export. *)
Definition rowFields (item : TableRow) : list value :=
  [row_id item; row_smiles item; row_type item; row_class item; row_ic50 item].

(** ** The bar chart of the results (lines 89-102) *)

(** The test of the [filter] of line 91. *)
Definition classedInhibitor (item : value) : bool :=
  match get item (lit "classification") with
  | VStr s => str_eqb s (lit "inhibitor")
  | _ => false
  end
  && match get item (lit "class") with
     | VNull => false
     | _ => true
     end.

(** The key of lines 93 and 99, a template literal. *)
Definition classKey (class : value) : str := lit "Class " ++ toString class.

(** [acc[k] || 0] on the counting object of the [reduce]: its keys all
    start with Class, so none is inherited, and a key that is not there
    reads as 0. *)
Fixpoint count_of (k : str) (acc : list (str * Z)) : Z :=
  match acc with
  | [] => 0
  | (k', n) :: rest => if str_eqb k k' then n else count_of k rest
  end.

(** [acc[k] = n] *)
Fixpoint set_count (k : str) (n : Z) (acc : list (str * Z)) : list (str * Z) :=
  match acc with
  | [] => [(k, n)]
  | (k', m) :: rest =>
      if str_eqb k k' then (k', n) :: rest else (k', m) :: set_count k n rest
  end.

Definition classCounts (predictions : list value) : list (str * Z) :=
  fold_left
    (fun acc item =>
       set_count (classKey (get item (lit "class")))
         (count_of (classKey (get item (lit "class"))) acc + 1)%Z acc)
    (filter classedInhibitor predictions) [].

Definition barChartData (predictions : list value) : list (str * Z) :=
  map (fun classNum =>
         (classKey (VNum classNum),
          count_of (classKey (VNum classNum)) (classCounts predictions)))
    [0; 1; 2]%Z.

(** Lines 68-74 go through for this prediction: it is an object whose
    classification is a string and whose ic50 is [null] or a number.  On any
    other prediction [charAt] or [toFixed] is called on a value without it
    and the effect throws. *)
Definition rowReadable (item : value) : bool :=
  match item with
  | VObj fields =>
      match lookup (lit "classification") fields with
      | VStr _ =>
          match lookup (lit "ic50") fields with
          | VNull | VNum _ => true
          | _ => false
          end
      | _ => false
      end
  | _ => false
  end.

(** The key of line 93 can be made: the class of a counted prediction
    prints. *)
Definition keyPrints (item : value) : bool :=
  negb (classedInhibitor item) || printable (get item (lit "class")).

(** The bar chart the effect of lines 65-108 sets for [results]; [None]
    when the effect throws: the predictions are no array, a row cannot be
    tabulated, or a key cannot be made. *)
Definition barsOf (results : value) : option (list (str * Z)) :=
  if truthy results && truthy (get results (lit "predictions")) then
    match get results (lit "predictions") with
    | VArr predictions =>
        if forallb rowReadable predictions && forallb keyPrints predictions
        then Some (barChartData predictions) else None
    | _ => None
    end
  else Some [].

(** The predictions a bar counts: the classed inhibitors whose class prints
    as the number of the bar. *)
Definition inClass (classNum : Z) (item : value) : bool :=
  classedInhibitor item
  && str_eqb (toString (get item (lit "class"))) (decimal classNum).

(** A prediction as the service sends it. *)
Definition prediction (smiles classification : str) (class ic50 : value) : value :=
  VObj [(lit "smiles", VStr smiles); (lit "classification", VStr classification);
        (lit "class", class); (lit "ic50", ic50)].

(** An answer with two inhibitors of class 0, one of class 2 and a decoy. *)
Definition sampleResults : value :=
  VObj [(lit "predictions",
         VArr [prediction (lit "CCC") (lit "inhibitor") (VNum 0) (VNum 12);
               prediction (lit "CCO") (lit "decoy") VNull VNull;
               prediction (lit "CNC") (lit "inhibitor") (VNum 2) (VNum 3);
               prediction (lit "CCN") (lit "inhibitor") (VNum 0) (VNum 40)])].

(** ** Definitions for the failed parse *)

(** The test of line 119: the file is read as text. *)
Definition readAsText (file : File) : bool :=
  endsWith (lit ".csv") (toLowerCase (file_name file))
  || str_eqb (file_type file) (lit "text/csv").

(** A text that starts with the signature of a ZIP archive, PK 03 04, and
    is none: the spreadsheet library takes it for a workbook and throws. *)
Definition zipLikeText : str :=
  lit "PK" ++ [ascii_of_nat 3; ascii_of_nat 4] ++ lit ",name" ++ [LF]
  ++ lit "CCC;x" ++ [LF] ++ lit "C" ++ [LF] ++ lit " CCO ".

(** ** The component while a submission is pending *)

(** [handleSubmit] reaches an [await] before it returns: always with a
    file (line 199), and without one when it gets to the [fetch] of line
    224. *)
Definition awaits (env : Env) (st : State) : bool :=
  match selectedFile st with
  | Some _ => true
  | None =>
      match snd (handleSubmit env st) with
      | [] => false
      | _ :: _ => true
      end
  end.

(** What happens next: the user does something, or what the pending
    submission waits for settles. *)
Inductive tick : Type :=
| User (e : event)
| Answered.

(** One tick.  While the loading flag is on, the textarea, the file input
    and both buttons are disabled (lines 404, 418, 438, 460).  A click on
    Predict that reaches an [await] leaves the state of line 194 on the
    screen until the answer is there. *)
Definition stepAsync (env : Env) (st : State) (t : tick) : State :=
  match t with
  | User e =>
      if isLoading st then st
      else
        match e with
        | SubmitClicked =>
            if submitDisabled st then st
            else if awaits env st then submitting st
            else fst (handleSubmit env st)
        | _ => step env st e
        end
  | Answered => if isLoading st then fst (handleSubmit env st) else st
  end.

Definition runAsync (env : Env) (ticks : list tick) : State :=
  fold_left (stepAsync env) ticks initial.

(** The file name shown belongs to the selected file, which was accepted. *)
Definition fileShown (st : State) : Prop :=
  match selectedFile st with
  | Some f => acceptedName (file_name f) = true /\ fileName st = file_name f
  | None => fileName st = []
  end.

(** * Properties *)

(** ** The string primitives on concrete inputs *)

Example splitRuns_ex :
  splitRuns (fun c => char_eqb c COMMA) (lit ",a,,b,") = [[]; lit "a"; lit "b"; []].
Proof. reflexivity. Qed.

Example splitLines_ex :
  splitLines (lit "a" ++ [CR; LF] ++ lit "b" ++ [CR] ++ [LF] ++ [CR]) = [lit "a"; lit "b"; [CR]].
Proof. reflexivity. Qed.

Example toString_ex :
  toString (VArr [VNum (-12); VNull; VStr (lit "x"); VBool false]) = lit "-12,,x,false".
Proof. reflexivity. Qed.

(** ** Strings *)

Section StringFacts.

Lemma char_eqb_eq (a b : ascii) : char_eqb a b = true <-> a = b.
Proof. apply Ascii.eqb_eq. Qed.

Lemma char_eqb_refl (a : ascii) : char_eqb a a = true.
Proof. apply Ascii.eqb_refl. Qed.

Lemma str_eqb_eq (a b : str) : str_eqb a b = true <-> a = b.
Proof.
  revert b; induction a as [|x a IH]; intros [|y b]; simpl; split; intro H;
    try reflexivity; try discriminate.
  - apply andb_prop in H as [Hx Hab].
    apply char_eqb_eq in Hx; apply IH in Hab; congruence.
  - injection H as -> ->. rewrite char_eqb_refl. now apply IH.
Qed.

Lemma truthy_VStr (s : str) : truthy (VStr s) = true <-> s <> [].
Proof. destruct s; simpl; split; congruence. Qed.

Lemma truthy_VStr_false (s : str) : truthy (VStr s) = false <-> s = [].
Proof. destruct s; simpl; split; congruence. Qed.

Lemma forallb_rev (A : Type) (f : A -> bool) (l : list A) :
  forallb f (rev l) = forallb f l.
Proof.
  induction l as [|a l IH]; simpl; [reflexivity|].
  rewrite forallb_app, IH; simpl. rewrite andb_true_r. apply andb_comm.
Qed.

(** *** [trim] *)

Lemma trimStart_all_ws (s : str) :
  forallb isWhiteSpace s = true -> trimStart s = [].
Proof.
  induction s as [|c s IH]; simpl; [reflexivity|].
  intro H; apply andb_prop in H as [Hc Hs]. now rewrite Hc; apply IH.
Qed.

Lemma trimStart_nil_inv (s : str) :
  trimStart s = [] -> forallb isWhiteSpace s = true.
Proof.
  induction s as [|c s IH]; simpl; [reflexivity|].
  destruct (isWhiteSpace c); simpl; [exact IH | discriminate].
Qed.

Lemma trimStart_app (s x : str) :
  trimStart (s ++ x) =
  if forallb isWhiteSpace s then trimStart x else trimStart s ++ x.
Proof.
  induction s as [|c s IH]; simpl; [reflexivity|].
  destruct (isWhiteSpace c); simpl; [exact IH | reflexivity].
Qed.

Lemma trimStart_head (s : str) (c : ascii) (t : str) :
  trimStart s = c :: t -> isWhiteSpace c = false.
Proof.
  induction s as [|a s IH]; simpl; [discriminate|].
  destruct (isWhiteSpace a) eqn:E; [exact IH|].
  intro H; injection H as <- _; exact E.
Qed.

Lemma trimStart_idem (s : str) : trimStart (trimStart s) = trimStart s.
Proof.
  induction s as [|c s IH]; simpl; [reflexivity|].
  destruct (isWhiteSpace c) eqn:E; [exact IH|]. simpl; now rewrite E.
Qed.

Lemma trimEnd_app_ws (s ws : str) :
  forallb isWhiteSpace ws = true -> trimEnd (s ++ ws) = trimEnd s.
Proof.
  intro H. unfold trimEnd. rewrite rev_app_distr, trimStart_app.
  now rewrite forallb_rev, H.
Qed.

Lemma trimEnd_idem (s : str) : trimEnd (trimEnd s) = trimEnd s.
Proof. unfold trimEnd. now rewrite rev_involutive, trimStart_idem. Qed.

Lemma trimEnd_cons_nonws (c : ascii) (t : str) :
  isWhiteSpace c = false -> exists u, trimEnd (c :: t) = c :: u.
Proof.
  intro Hc. unfold trimEnd; simpl. rewrite trimStart_app.
  destruct (forallb isWhiteSpace (rev t)).
  - simpl. rewrite Hc. now exists [].
  - rewrite rev_app_distr; simpl. now eexists.
Qed.

Lemma trim_idem (s : str) : trim (trim s) = trim s.
Proof.
  unfold trim. destruct (trimStart s) as [|c t] eqn:E; [reflexivity|].
  apply trimStart_head in E.
  destruct (@trimEnd_cons_nonws c t E) as [u Hu].
  rewrite Hu at 1. simpl. rewrite E, <- Hu. apply trimEnd_idem.
Qed.

Lemma trim_ws_l (ws s : str) :
  forallb isWhiteSpace ws = true -> trim (ws ++ s) = trim s.
Proof. intro H. unfold trim. now rewrite trimStart_app, H. Qed.

Lemma trim_ws_r (s ws : str) :
  forallb isWhiteSpace ws = true -> trim (s ++ ws) = trim s.
Proof.
  intro H. unfold trim. rewrite trimStart_app.
  destruct (forallb isWhiteSpace s) eqn:E.
  - now rewrite (trimStart_all_ws _ H), (trimStart_all_ws _ E).
  - now apply trimEnd_app_ws.
Qed.

Lemma trim_nil_inv (s : str) : trim s = [] -> forallb isWhiteSpace s = true.
Proof.
  unfold trim, trimEnd. intro H.
  apply (f_equal (@rev ascii)) in H. rewrite rev_involutive in H; simpl in H.
  apply trimStart_nil_inv in H. rewrite forallb_rev in H.
  destruct (trimStart s) as [|c t] eqn:E; [now apply trimStart_nil_inv|].
  apply trimStart_head in E. simpl in H. now rewrite E in H.
Qed.

Lemma trim_all_ws (s : str) : forallb isWhiteSpace s = true -> trim s = [].
Proof. intro H. unfold trim. now rewrite (trimStart_all_ws _ H). Qed.

(** *** [split] *)

Lemma pushes_push (x : str) (c : ascii) (l : list str) :
  pushes x (push c l) = pushes (x ++ [c]) l.
Proof. destruct l as [|p ps]; simpl; now rewrite <- ?app_assoc. Qed.

Lemma splitClass_cons (d : ascii -> bool) (s : str) :
  exists p ps, splitClass d s = p :: ps.
Proof.
  induction s as [|c s (p & ps & IH)]; simpl; [now eexists; eexists|].
  destruct (d c); [now eexists; eexists|]. rewrite IH; simpl. now eexists; eexists.
Qed.

Lemma pushes_nil_splitClass (d : ascii -> bool) (s : str) :
  pushes [] (splitClass d s) = splitClass d s.
Proof. now destruct (splitClass_cons d s) as (p & ps & ->). Qed.

Lemma push_app (c : ascii) (l1 l2 : list str) :
  l1 <> [] -> push c (l1 ++ l2) = push c l1 ++ l2.
Proof. destruct l1; [congruence | reflexivity]. Qed.

(** A cut falls at the delimiter [c], whatever stands around it. *)
Lemma splitClass_app (d : ascii -> bool) (a b : str) (c : ascii) :
  d c = true -> splitClass d (a ++ c :: b) = splitClass d a ++ splitClass d b.
Proof.
  intro Hc. induction a as [|x a IH]; simpl; [now rewrite Hc|].
  rewrite IH. destruct (d x); [reflexivity|].
  apply push_app. now destruct (splitClass_cons d a) as (p & ps & ->).
Qed.

(** No piece of [splitClass] holds a delimiter. *)
Lemma splitClass_pieces (d : ascii -> bool) (s : str) :
  Forall (fun p => forallb (fun c => negb (d c)) p = true) (splitClass d s).
Proof.
  induction s as [|c s IH]; simpl; [now repeat constructor|].
  destruct (d c) eqn:E; [now constructor|].
  destruct (splitClass d s) as [|p ps]; simpl.
  - repeat constructor. simpl. now rewrite E.
  - inversion IH; subst. constructor; [simpl; now rewrite E|assumption].
Qed.

(** The pieces, with one delimiter between neighbours, are the string. *)
Lemma firstField_prefix (row : str) :
  exists rest, row = firstField row ++ rest
               /\ (rest = [] \/ exists c r, rest = c :: r /\ fieldSeparator c = true).
Proof.
  unfold firstField. induction row as [|c row (rest & IH & Hrest)]; simpl.
  - exists []; auto.
  - destruct (fieldSeparator c) eqn:E; simpl.
    + exists (c :: row). split; [reflexivity|]. right. now exists c, row.
    + destruct (splitClass_cons fieldSeparator row) as (p & ps & Hp).
      rewrite Hp in *; simpl in *. exists rest. split; [now rewrite IH at 1|exact Hrest].
Qed.

Lemma firstField_no_separator (row : str) :
  forallb (fun c => negb (fieldSeparator c)) (firstField row) = true.
Proof.
  unfold firstField. pose proof (splitClass_pieces fieldSeparator row) as H.
  destruct (splitClass fieldSeparator row); [reflexivity|]. now inversion H.
Qed.

Lemma clean_cons (p : str) (ps : list str) : clean (p :: ps) = clean [p] ++ clean ps.
Proof. unfold clean; cbn [map filter app]. now destruct (truthy (VStr (trim p))). Qed.

Lemma clean_app (l1 l2 : list str) : clean (l1 ++ l2) = clean l1 ++ clean l2.
Proof. unfold clean. now rewrite map_app, filter_app. Qed.

Lemma clean_nil_piece (ps : list str) : clean ([] :: ps) = clean ps.
Proof. reflexivity. Qed.

(** Cutting at runs or at every delimiter leaves the same cleaned list. *)
Lemma splitRuns_splitClass (d : ascii -> bool) (s : str) :
  clean (splitRuns_from d true s) = clean (splitClass d s)
  /\ exists p r1 r2, splitRuns_from d false s = p :: r1
                     /\ splitClass d s = p :: r2 /\ clean r1 = clean r2.
Proof.
  induction s as [|c s [IH1 (p & r1 & r2 & Hr & Hc & IH2)]]; simpl.
  - split; [reflexivity|]. now exists [], [], [].
  - destruct (d c).
    + split; [exact IH1|]. now exists [], (splitRuns_from d true s), (splitClass d s).
    + rewrite Hr, Hc; simpl. split.
      * rewrite (clean_cons (c :: p) r1), (clean_cons (c :: p) r2). now rewrite IH2.
      * now exists (c :: p), r1, r2.
Qed.

(** White space around the whole text adds nothing to the cleaned list. *)
Lemma clean_split_ws (d : ascii -> bool) (ws x : str) :
  forallb isWhiteSpace ws = true ->
  clean (pushes x (splitClass d ws)) = clean [x].
Proof.
  revert x; induction ws as [|w ws IH]; intros x H; simpl.
  - now rewrite app_nil_r.
  - apply andb_prop in H as [Hw Hws]. destruct (d w).
    + simpl. rewrite app_nil_r, clean_cons.
      rewrite <- (pushes_nil_splitClass d ws), (IH [] Hws). apply app_nil_r.
    + rewrite pushes_push, (IH _ Hws). unfold clean; simpl.
      rewrite trim_ws_r; [reflexivity|]. simpl. now rewrite Hw.
Qed.

Lemma clean_split_ws_r (d : ascii -> bool) (s ws x : str) :
  forallb isWhiteSpace ws = true ->
  clean (pushes x (splitClass d (s ++ ws))) = clean (pushes x (splitClass d s)).
Proof.
  intro H. revert x; induction s as [|c s IH]; intro x; simpl.
  - rewrite app_nil_r. now apply clean_split_ws.
  - destruct (d c).
    + simpl. rewrite (clean_cons (x ++ []) (splitClass d (s ++ ws))).
      rewrite (clean_cons (x ++ []) (splitClass d s)). f_equal.
      rewrite <- (pushes_nil_splitClass d (s ++ ws)), <- (pushes_nil_splitClass d s).
      apply IH.
    + rewrite !pushes_push. apply IH.
Qed.

Lemma clean_split_ws_l (d : ascii -> bool) (ws s x : str) :
  forallb isWhiteSpace ws = true ->
  clean (pushes x (splitClass d (ws ++ s))) = clean [x] ++ clean (splitClass d s)
  \/ clean (pushes x (splitClass d (ws ++ s))) = clean (pushes (x ++ ws) (splitClass d s)).
Proof.
  revert x; induction ws as [|w ws IH]; intros x H; simpl.
  - right. now rewrite app_nil_r.
  - apply andb_prop in H as [Hw Hws]. destruct (d w).
    + left. simpl. rewrite app_nil_r, clean_cons. f_equal.
      rewrite <- (pushes_nil_splitClass d (ws ++ s)).
      destruct (IH [] Hws) as [E|E]; rewrite E; [reflexivity|].
      destruct (splitClass_cons d s) as (p & ps & ->); simpl.
      rewrite (clean_cons (ws ++ p)), (clean_cons p). f_equal.
      unfold clean; simpl. now rewrite trim_ws_l.
    + rewrite pushes_push.
      destruct (IH (x ++ [w]) Hws) as [E|E]; rewrite E.
      * left. f_equal. unfold clean; simpl. rewrite trim_ws_r; [reflexivity|].
        simpl; now rewrite Hw.
      * right. now rewrite <- app_assoc.
Qed.

End StringFacts.

(** ** The free-text channel *)

Section FreeText.

Lemma text_smiles_spec (text : str) : text_smiles text = spec_text_smiles text.
Proof.
  unfold text_smiles, splitRuns.
  destruct (splitRuns_splitClass newlineOrComma text) as [_ (p & r1 & r2 & -> & Hc & E)].
  unfold spec_text_smiles. rewrite Hc.
  change (clean (p :: r1) = clean (p :: r2)).
  now rewrite (clean_cons p r1), (clean_cons p r2), E.
Qed.

Lemma spec_text_smiles_clean (text : str) :
  spec_text_smiles text = clean (splitClass newlineOrComma text).
Proof. reflexivity. Qed.

Lemma spec_text_smiles_ws (text : str) :
  forallb isWhiteSpace text = true -> spec_text_smiles text = [].
Proof.
  intro H. rewrite spec_text_smiles_clean, <- pushes_nil_splitClass.
  now rewrite clean_split_ws.
Qed.

Lemma spec_text_smiles_trailing (text ws : str) :
  forallb isWhiteSpace ws = true ->
  spec_text_smiles (text ++ ws) = spec_text_smiles text.
Proof.
  intro H. rewrite !spec_text_smiles_clean.
  rewrite <- (pushes_nil_splitClass _ (text ++ ws)), <- (pushes_nil_splitClass _ text).
  now apply clean_split_ws_r.
Qed.

Lemma spec_text_smiles_leading (ws text : str) :
  forallb isWhiteSpace ws = true ->
  spec_text_smiles (ws ++ text) = spec_text_smiles text.
Proof.
  intro H. rewrite !spec_text_smiles_clean.
  rewrite <- (pushes_nil_splitClass _ (ws ++ text)).
  destruct (clean_split_ws_l newlineOrComma ws text [] H) as [E|E]; rewrite E.
  - reflexivity.
  - destruct (splitClass_cons newlineOrComma text) as (p & ps & ->).
    cbn [pushes app]. rewrite (clean_cons (ws ++ p)), (clean_cons p). f_equal.
    unfold clean; cbn [map filter]. now rewrite trim_ws_l.
Qed.

(** A run of delimiters between two texts separates their candidates. *)
Lemma spec_text_smiles_delims (dl a b : str) :
  dl <> [] -> forallb newlineOrComma dl = true ->
  spec_text_smiles (a ++ dl ++ b) = spec_text_smiles a ++ spec_text_smiles b.
Proof.
  revert a; induction dl as [|c dl IH]; intros a Hne H; [congruence|].
  apply andb_prop in H as [Hc Hdl].
  rewrite !spec_text_smiles_clean. cbn [app].
  rewrite (splitClass_app newlineOrComma a (dl ++ b) c Hc), clean_app. f_equal.
  destruct dl as [|c' dl']; [reflexivity|].
  specialize (IH [] ltac:(discriminate) Hdl).
  rewrite !spec_text_smiles_clean in IH. exact IH.
Qed.

Lemma assemble_text (env : Env) (st : State) :
  selectedFile st = None ->
  assemble env st = Candidates (text_smiles (textareaValue st)).
Proof.
  intro H. unfold assemble. rewrite H.
  destruct (str_eqb (trim (textareaValue st)) []) eqn:E; [|reflexivity].
  apply str_eqb_eq, trim_nil_inv in E. cbn [negb].
  now rewrite text_smiles_spec, spec_text_smiles_ws.
Qed.

End FreeText.

(** C5. With no file selected, the list the submit handler assembles from
    the textarea is the text cut at newlines and commas, each piece trimmed,
    the empty pieces dropped.  White space before or after the whole text
    does not change it, nor does the choice of delimiters between two
    entries; the text of the specification's example gives CCC, CCO, CNC. *)
Theorem text_candidates :
  (forall (env : Env) (st : State),
      selectedFile st = None ->
      assemble env st = Candidates (spec_text_smiles (textareaValue st)))
  /\ (forall ws1 ws2 text : str,
         forallb isWhiteSpace ws1 = true -> forallb isWhiteSpace ws2 = true ->
         text_smiles (ws1 ++ text ++ ws2) = text_smiles text)
  /\ (forall a b dl1 dl2 : str,
         dl1 <> [] -> forallb newlineOrComma dl1 = true ->
         dl2 <> [] -> forallb newlineOrComma dl2 = true ->
         text_smiles (a ++ dl1 ++ b) = text_smiles (a ++ dl2 ++ b))
  /\ text_smiles (lit "CCC, CCO" ++ [LF] ++ lit "CNC") = [lit "CCC"; lit "CCO"; lit "CNC"].
Proof.
  split; [|split; [|split]].
  - intros env st H. now rewrite assemble_text, text_smiles_spec.
  - intros ws1 ws2 text H1 H2. rewrite !text_smiles_spec.
    now rewrite spec_text_smiles_leading, spec_text_smiles_trailing.
  - intros a b dl1 dl2 N1 H1 N2 H2. rewrite !text_smiles_spec.
    now rewrite !spec_text_smiles_delims.
  - reflexivity.
Qed.

Lemma text_candidates_witness :
  assemble (mkEnv (fun _ => ReadError []) (fun _ _ => XlsxThrows) (fun _ => FetchRejected []))
           (handleTextChange (lit " CCC ,, CCO") initial)
  = Candidates [lit "CCC"; lit "CCO"]
  /\ text_smiles (lit " " ++ lit "CCC,CCO" ++ [LF; CR]) = text_smiles (lit "CCC,CCO")
  /\ text_smiles (lit "CCC" ++ [COMMA] ++ lit "CCO") = text_smiles (lit "CCC" ++ [LF; COMMA; LF] ++ lit "CCO").
Proof.
  split; [|split].
  - exact (proj1 text_candidates _ (handleTextChange (lit " CCC ,, CCO") initial) eq_refl).
  - apply (proj1 (proj2 text_candidates)); reflexivity.
  - apply (proj1 (proj2 (proj2 text_candidates))); (discriminate || reflexivity).
Defined.

(** ** Submission *)

Section Submission.

Variable env : Env.
Variable st : State.

Lemma assemble_candidateList :
  assemble env st =
  match candidateList env st with
  | Throw message => Returned (messageOf message)
  | Ok smiles =>
      match selectedFile st with
      | Some _ => if length smiles =? 0 then Returned noSmilesInFile else Candidates smiles
      | None => Candidates smiles
      end
  end.
Proof.
  destruct (selectedFile st) as [file|] eqn:E.
  - unfold assemble, candidateList. rewrite E.
    destruct (readFileContent env file) as [[content isBinary]|message]; [|reflexivity].
    now destruct (parseFileContent env content isBinary (file_name file)).
  - rewrite (assemble_text env st E). unfold candidateList. now rewrite E.
Qed.

(** The four ways out of [handleSubmit]. *)
Lemma handleSubmit_cases :
  handleSubmit env st =
  match candidateList env st with
  | Throw message =>
      (calls [setInputError (messageOf message); setIsLoading false] (submitting st), [])
  | Ok smiles =>
      if length smiles =? 0 then
        (calls [setInputError (emptyMessage st); setIsLoading false] (submitting st), [])
      else if MAX_COMPOUNDS <? length smiles then
        (calls [setInputError (tooMany (length smiles)); setIsLoading false] (submitting st), [])
      else
        (calls [setResults (resultsOf (service env smiles)); setIsLoading false] (submitting st),
         [smiles])
  end.
Proof.
  unfold handleSubmit. fold (submitting st). rewrite assemble_candidateList.
  destruct (candidateList env st) as [smiles|message]; [|reflexivity].
  unfold emptyMessage.
  destruct (selectedFile st); [|reflexivity].
  now destruct (length smiles =? 0) eqn:E; [|rewrite E].
Qed.

End Submission.

(** C1. A submission sends a request to the prediction service exactly when
    its Candidate List exists, is not empty and has at most 20 entries, and
    the request then carries that list.  An empty list is turned away with
    the no-input message of its channel, a list of more than 20 entries with
    the message that states the limit 20 and the number of entries; a file
    that cannot be read or parsed with the message of its error.  In none of
    these cases is a request sent, and the loading flag is off again. *)
Theorem submit_contacts_service (env : Env) (st : State) :
  (snd (handleSubmit env st) <> [] <->
   exists smiles, candidateList env st = Ok smiles /\ smiles <> [] /\ length smiles <= 20)
  /\ (forall smiles,
         candidateList env st = Ok smiles -> smiles <> [] -> length smiles <= 20 ->
         snd (handleSubmit env st) = [smiles])
  /\ (candidateList env st = Ok [] ->
      snd (handleSubmit env st) = []
      /\ inputError (fst (handleSubmit env st)) = emptyMessage st
      /\ isLoading (fst (handleSubmit env st)) = false)
  /\ (forall smiles,
         candidateList env st = Ok smiles -> 20 < length smiles ->
         snd (handleSubmit env st) = []
         /\ inputError (fst (handleSubmit env st))
            = lit "Max 20 compounds allowed. You provided "
              ++ decimal (Z.of_nat (length smiles)) ++ lit "."
         /\ isLoading (fst (handleSubmit env st)) = false)
  /\ (forall message,
         candidateList env st = Throw message ->
         snd (handleSubmit env st) = []
         /\ inputError (fst (handleSubmit env st)) = messageOf message
         /\ isLoading (fst (handleSubmit env st)) = false).
Proof.
  rewrite handleSubmit_cases.
  destruct (candidateList env st) as [smiles|message].
  2:{ split; [split; [intros H; now contradiction H | intros (l & H & _); discriminate]|].
      split; [intros l H; discriminate|].
      split; [intros H; discriminate|].
      split; [intros l H; discriminate|].
      intros m H. injection H as <-. now repeat split. }
  destruct (length smiles =? 0) eqn:E0.
  { apply Nat.eqb_eq, length_zero_iff_nil in E0. subst smiles.
    split; [split; [intros H; now contradiction H
                   | intros (l & H & Hne & _); injection H as <-; congruence]|].
    split; [intros l H Hne; injection H as <-; congruence|].
    split; [intros _; now repeat split|].
    split; [intros l H Hl; injection H as <-; simpl in Hl; lia|].
    intros m H; discriminate. }
  apply Nat.eqb_neq in E0.
  destruct (MAX_COMPOUNDS <? length smiles) eqn:E1.
  { apply Nat.ltb_lt in E1. unfold MAX_COMPOUNDS in E1.
    split; [split; [intros H; now contradiction H
                   | intros (l & H & _ & Hle); injection H as <-; lia]|].
    split; [intros l H _ Hle; injection H as <-; lia|].
    split; [intros H; injection H as ->; exfalso; now apply E0|].
    split; [intros l H _; injection H as <-; now repeat split|].
    intros m H; discriminate. }
  apply Nat.ltb_ge in E1. unfold MAX_COMPOUNDS in E1.
  split; [split; [intros _; exists smiles; repeat split; [now intros -> | exact E1]
                 | intros _; discriminate]|].
  split; [intros l H _ _; now injection H as <-|].
  split; [intros H; injection H as ->; exfalso; now apply E0|].
  split; [intros l H Hl; injection H as <-; lia|].
  intros m H; discriminate.
Qed.

Lemma submit_contacts_service_witness :
  snd (handleSubmit offline (handleTextChange (List.concat (repeat (lit "CCC,") 21)) initial)) = []
  /\ inputError (fst (handleSubmit offline
                        (handleTextChange (List.concat (repeat (lit "CCC,") 21)) initial)))
     = lit "Max 20 compounds allowed. You provided 21.".
Proof.
  destruct (proj1 (proj2 (proj2 (proj2
              (submit_contacts_service offline
                 (handleTextChange (List.concat (repeat (lit "CCC,") 21)) initial)))))
              (repeat (lit "CCC") 21) eq_refl ltac:(simpl; lia)) as (H1 & H2 & _).
  split; [exact H1 | exact H2].
Defined.

(** ** The answer of the service *)

Lemma handleSubmit_results (env : Env) (st : State) (smiles : list str) :
  snd (handleSubmit env st) = [smiles] ->
  results (fst (handleSubmit env st)) = resultsOf (service env smiles).
Proof.
  rewrite handleSubmit_cases.
  destruct (candidateList env st) as [l|message]; [|discriminate].
  destruct (length l =? 0); [discriminate|].
  destruct (MAX_COMPOUNDS <? length l); [discriminate|].
  cbn. now intros [= ->].
Qed.

Lemma apiErrorPanel_error (st : State) (message : str) :
  results st = errorResult (VStr message) -> message <> [] ->
  apiErrorPanel st = Some (VStr message).
Proof.
  intros H Hne. unfold apiErrorPanel. rewrite H. cbn.
  now destruct message.
Qed.

(** C7, amended. When the service answers a request with a status outside
    200..299 and the JSON body [{error: m}], m a non-empty string, the API
    Error panel shows exactly m; for the empty string m it shows the status
    behind the words Server Error.  When the body of the answer cannot be
    decoded, the panel shows the decoder's message behind the words
    Network/Parsing Error: the failure is never silent. *)
Theorem service_error_panel (env : Env) (st : State) (smiles : list str) :
  snd (handleSubmit env st) = [smiles] ->
  (forall status m,
      service env smiles = Response status (Json (VObj [(lit "error", VStr m)])) ->
      ok status = false -> m <> [] ->
      apiErrorPanel (fst (handleSubmit env st)) = Some (VStr m))
  /\ (forall status,
         service env smiles = Response status (Json (VObj [(lit "error", VStr [])])) ->
         ok status = false ->
         apiErrorPanel (fst (handleSubmit env st))
         = Some (VStr (lit "Server Error: " ++ decimal status)))
  /\ (forall status message,
         service env smiles = Response status (NotJson message) ->
         apiErrorPanel (fst (handleSubmit env st))
         = Some (VStr (lit "Network/Parsing Error: " ++ message))).
Proof.
  intro Hsent. apply handleSubmit_results in Hsent.
  repeat split.
  - intros status m Hr Hok Hm. apply apiErrorPanel_error; [|exact Hm].
    rewrite Hsent, Hr. cbn. rewrite Hok. cbn. now destruct m.
  - intros status Hr Hok. apply apiErrorPanel_error; [|discriminate].
    rewrite Hsent, Hr. cbn. now rewrite Hok.
  - intros status message Hr. apply apiErrorPanel_error; [|discriminate].
    now rewrite Hsent, Hr.
Qed.

Lemma service_error_panel_witness :
  apiErrorPanel
    (fst (handleSubmit (answering 400 (Json (VObj [(lit "error", VStr (lit "bad request"))])))
            (handleTextChange (lit "CCC") initial)))
  = Some (VStr (lit "bad request")).
Proof.
  apply (proj1 (service_error_panel
                  (answering 400 (Json (VObj [(lit "error", VStr (lit "bad request"))])))
                  (handleTextChange (lit "CCC") initial) [lit "CCC"] eq_refl)
               400%Z (lit "bad request") eq_refl eq_refl).
  discriminate.
Defined.

(** The claim as worded fails for the empty message: the answer 400 with the
    body [{error: ''}] shows Server Error: 400, not the empty string. *)
Lemma service_error_panel_empty_message :
  service (answering 400 (Json (VObj [(lit "error", VStr [])]))) [lit "CCC"]
  = Response 400 (Json (VObj [(lit "error", VStr [])]))
  /\ ok 400 = false
  /\ snd (handleSubmit (answering 400 (Json (VObj [(lit "error", VStr [])])))
            (handleTextChange (lit "CCC") initial)) = [[lit "CCC"]]
  /\ apiErrorPanel
       (fst (handleSubmit (answering 400 (Json (VObj [(lit "error", VStr [])])))
               (handleTextChange (lit "CCC") initial)))
     = Some (VStr (lit "Server Error: 400"))
  /\ apiErrorPanel
       (fst (handleSubmit (answering 400 (Json (VObj [(lit "error", VStr [])])))
               (handleTextChange (lit "CCC") initial)))
     <> Some (VStr []).
Proof. repeat split; try reflexivity. discriminate. Qed.

(** ** The two input channels *)

Section Channels.

Variable env : Env.

Lemma handleSubmit_inputs (st : State) :
  textareaValue (fst (handleSubmit env st)) = textareaValue st
  /\ selectedFile (fst (handleSubmit env st)) = selectedFile st.
Proof.
  rewrite handleSubmit_cases.
  destruct (candidateList env st) as [smiles|message]; [|now split].
  destruct (length smiles =? 0); [now split|].
  destruct (MAX_COMPOUNDS <? length smiles); now split.
Qed.

Lemma step_exclusive (st : State) (e : event) : exclusive st -> exclusive (step env st e).
Proof.
  unfold exclusive, textActive, fileActive. intro H.
  destruct e as [[f|]|v| |]; cbn [step].
  - unfold handleFileChange. destruct (negb _); cbn; [apply andb_false_r | reflexivity].
  - cbn. apply andb_false_r.
  - cbn. apply andb_false_r.
  - destruct (submitDisabled st); [exact H|].
    destruct (handleSubmit_inputs st) as [-> ->]. exact H.
  - reflexivity.
Qed.

Lemma run_exclusive_from (events : list event) (st : State) :
  exclusive st -> exclusive (fold_left (step env) events st).
Proof.
  revert st; induction events as [|e events IH]; intros st H; [exact H|].
  cbn [fold_left]. apply IH. now apply step_exclusive.
Qed.

End Channels.

(** C8, amended. In every state the component reaches, at most one of the
    textarea and the file selection holds input.  Selecting a file with an
    accepted extension makes it the selected file and clears the text and
    the results; a file with another extension is turned away, the selection
    is cleared, and text and results stay.  Typing into the textarea clears
    the selected file and the results. *)
Theorem one_input_source :
  (forall (env : Env) (events : list event),
      textActive (run env events) && fileActive (run env events) = false)
  /\ (forall (f : File) (st : State),
         allowed f = true ->
         selectedFile (handleFileChange (Some f) st) = Some f
         /\ textareaValue (handleFileChange (Some f) st) = []
         /\ results (handleFileChange (Some f) st) = VNull)
  /\ (forall (f : File) (st : State),
         allowed f = false ->
         selectedFile (handleFileChange (Some f) st) = None
         /\ textareaValue (handleFileChange (Some f) st) = textareaValue st
         /\ results (handleFileChange (Some f) st) = results st)
  /\ (forall (v : str) (st : State),
         textareaValue (handleTextChange v st) = v
         /\ selectedFile (handleTextChange v st) = None
         /\ results (handleTextChange v st) = VNull).
Proof.
  split; [|split; [|split]].
  - intros env events. now apply run_exclusive_from.
  - intros f st H. unfold handleFileChange. fold (allowed f). now rewrite H.
  - intros f st H. unfold handleFileChange. fold (allowed f). now rewrite H.
  - now intros v st.
Qed.

Lemma one_input_source_witness :
  selectedFile (handleFileChange (Some (mkFile (lit "set.CSV") (lit "text/csv")))
                  (handleTextChange (lit "CCC") initial))
  = Some (mkFile (lit "set.CSV") (lit "text/csv"))
  /\ textareaValue (handleFileChange (Some (mkFile (lit "set.CSV") (lit "text/csv")))
                      (handleTextChange (lit "CCC") initial)) = []
  /\ textareaValue (handleFileChange (Some (mkFile (lit "notes.txt") (lit "text/plain")))
                      (handleTextChange (lit "CCC") initial)) = lit "CCC".
Proof.
  destruct (proj1 (proj2 one_input_source) (mkFile (lit "set.CSV") (lit "text/csv"))
              (handleTextChange (lit "CCC") initial) eq_refl) as (H1 & H2 & _).
  destruct (proj1 (proj2 (proj2 one_input_source))
              (mkFile (lit "notes.txt") (lit "text/plain"))
              (handleTextChange (lit "CCC") initial) eq_refl) as (_ & H3 & _).
  repeat split; assumption.
Defined.

(** The claim as worded fails in the first state and after Clear All: no
    channel holds input there, and the Predict button is disabled. *)
Lemma no_input_source_at_start :
  textActive (run offline []) = false
  /\ fileActive (run offline []) = false
  /\ submitDisabled (run offline []) = true
  /\ textActive (run offline [TextTyped (lit "CCC"); ClearClicked]) = false
  /\ fileActive (run offline [TextTyped (lit "CCC"); ClearClicked]) = false.
Proof. repeat split. Qed.

(** ** The export *)

Section CsvExport.

Lemma includesChar_In (c : ascii) (s : str) : includesChar c s = true <-> In c s.
Proof.
  unfold includesChar. rewrite existsb_exists. split.
  - intros (x & Hin & Hx). apply char_eqb_eq in Hx. now subst.
  - intro H. exists c. split; [exact H | apply char_eqb_refl].
Qed.

Lemma needsQuoting_In (s : str) :
  needsQuoting s = true <-> In COMMA s \/ In DQUOTE s \/ In LF s \/ In CR s.
Proof.
  unfold needsQuoting. rewrite !orb_true_iff, !includesChar_In. tauto.
Qed.

Lemma escapeCSVField_fieldText (field : value) :
  escapeCSVField field =
  if needsQuoting (fieldText field)
  then [DQUOTE] ++ doubleQuotes (fieldText field) ++ [DQUOTE]
  else fieldText field.
Proof. now destruct field. Qed.

Lemma doubleQuotes_cons (c : ascii) (s : str) :
  doubleQuotes (c :: s)
  = (if char_eqb c DQUOTE then [DQUOTE; DQUOTE] else [c]) ++ doubleQuotes s.
Proof. reflexivity. Qed.

Lemma undouble_doubleQuotes (s : str) :
  undouble (doubleQuotes s ++ [DQUOTE]) = Some s.
Proof.
  induction s as [|c s IH]; [reflexivity|].
  rewrite doubleQuotes_cons.
  destruct (char_eqb c DQUOTE) eqn:E; cbn [app undouble].
  - apply char_eqb_eq in E; subst c. rewrite !char_eqb_refl. now rewrite IH.
  - rewrite E. now rewrite IH.
Qed.

Lemma readCSVField_plain (s : str) : needsQuoting s = false -> readCSVField s = Some s.
Proof.
  destruct s as [|c s]; [reflexivity|]. intro H.
  cbn [readCSVField]. destruct (char_eqb c DQUOTE) eqn:E; [|reflexivity].
  exfalso. apply char_eqb_eq in E; subst c.
  assert (needsQuoting (DQUOTE :: s) = true) as H'
      by (apply needsQuoting_In; right; left; now left).
  congruence.
Qed.

End CsvExport.

(** C9. A field whose text holds a comma, a double quote, a line feed or a
    carriage return is written between double quotes with every double
    quote of the text doubled; any other field is written as its text.  The
    text of [null] and [undefined] is empty, that of any other value is its
    [String()].  Read back as a CSV field, what was written gives the text
    again.  The identifier C,C is written between double quotes. *)
Theorem escapeCSVField_quoting (field : value) :
  (In COMMA (fieldText field) \/ In DQUOTE (fieldText field)
   \/ In LF (fieldText field) \/ In CR (fieldText field) ->
   escapeCSVField field = [DQUOTE] ++ doubleQuotes (fieldText field) ++ [DQUOTE])
  /\ (~ (In COMMA (fieldText field) \/ In DQUOTE (fieldText field)
         \/ In LF (fieldText field) \/ In CR (fieldText field)) ->
      escapeCSVField field = fieldText field)
  /\ doubleQuotes (fieldText field)
     = List.concat (map (fun c => if char_eqb c DQUOTE then [DQUOTE; DQUOTE] else [c])
                 (fieldText field))
  /\ readCSVField (escapeCSVField field) = Some (fieldText field)
  /\ escapeCSVField (VStr (lit "C,C")) = [DQUOTE] ++ lit "C,C" ++ [DQUOTE].
Proof.
  rewrite escapeCSVField_fieldText, <- needsQuoting_In.
  destruct (needsQuoting (fieldText field)) eqn:E; repeat split;
    try congruence; try (intros; reflexivity).
  - unfold doubleQuotes. apply flat_map_concat_map.
  - cbn. apply undouble_doubleQuotes.
  - unfold doubleQuotes. apply flat_map_concat_map.
  - now apply readCSVField_plain.
Qed.

Lemma escapeCSVField_quoting_witness :
  escapeCSVField (VStr (lit "say " ++ [DQUOTE] ++ lit "hi" ++ [DQUOTE]))
  = [DQUOTE] ++ lit "say " ++ [DQUOTE; DQUOTE] ++ lit "hi" ++ [DQUOTE; DQUOTE] ++ [DQUOTE]
  /\ escapeCSVField (VNum 12) = lit "12".
Proof.
  split.
  - apply (proj1 (escapeCSVField_quoting (VStr (lit "say " ++ [DQUOTE] ++ lit "hi" ++ [DQUOTE])))).
    right; left. cbn. tauto.
  - apply (proj1 (proj2 (escapeCSVField_quoting (VNum 12)))).
    cbv. intros [H|[H|[H|H]]]; repeat (destruct H as [H|H]; [discriminate H|]); exact H.
Defined.

(** ** The file channel: the structured parse *)

Section Sheet.

Lemma keep_spec (s : str) :
  keep s = true <->
  s <> [] /\ 2 < length s
  /\ includes (lit "smiles") (toLowerCase s) = false
  /\ includes (lit "compound") (toLowerCase s) = false.
Proof.
  unfold keep. rewrite !andb_true_iff, !negb_true_iff, truthy_VStr, Nat.ltb_lt. tauto.
Qed.

Lemma trim_nil : trim [] = [].
Proof. reflexivity. Qed.

Lemma keep_nil : keep [] = false.
Proof. reflexivity. Qed.

Lemma sheet_cell_trimmed (row : list value) : trim (sheet_cell row) = sheet_cell row.
Proof.
  unfold sheet_cell. destruct (truthy (index row 0)); [apply trim_idem | apply trim_nil].
Qed.

Lemma sheet_cell_text (row : list value) : sheet_cell row = trim (sheet_text row).
Proof.
  unfold sheet_cell, sheet_text, or_else. now destruct (truthy (index row 0)).
Qed.

(** A row whose first cell is not [false] gives the filter the same entry
    under both readings of its first cell. *)
Lemma cell_agree (row : list value) :
  firstIsFalse row = false ->
  filter keep [spec_cell row] = filter keep [sheet_cell row].
Proof.
  unfold firstIsFalse, spec_cell, sheet_cell.
  destruct (index row 0) as [| |[|]|n|s|items|fields]; try reflexivity; try discriminate.
  - intros _. cbn [truthy]. destruct (n =? 0)%Z eqn:E; [|reflexivity].
    apply Z.eqb_eq in E; subst n. reflexivity.
  - intros _. now destruct s.
Qed.

Lemma cell_false (row : list value) : firstIsFalse row = true -> sheet_cell row = [].
Proof.
  unfold firstIsFalse, sheet_cell.
  now destruct (index row 0) as [| |[|]|n|s|items|fields].
Qed.

Lemma filter_keep_cons (s : str) (l : list str) :
  filter keep (s :: l) = filter keep [s] ++ filter keep l.
Proof. cbn [filter]. now destruct (keep s). Qed.

Lemma sheet_cells_spec (rows : list (list value)) :
  filter keep (map sheet_cell rows)
  = filter keep (map spec_cell (filter (fun row => negb (firstIsFalse row)) rows)).
Proof.
  induction rows as [|row rows IH]; [reflexivity|].
  cbn [map]. rewrite filter_keep_cons, IH.
  change (filter (fun r => negb (firstIsFalse r)) (row :: rows))
    with (if negb (firstIsFalse row)
          then row :: filter (fun r => negb (firstIsFalse r)) rows
          else filter (fun r => negb (firstIsFalse r)) rows).
  destruct (firstIsFalse row) eqn:E; cbn [negb].
  - now rewrite (cell_false row E).
  - cbn [map]. rewrite (filter_keep_cons (spec_cell row)). now rewrite (cell_agree row E).
Qed.

Lemma in_skipn (A : Type) (x : A) (n : nat) (l : list A) : In x (skipn n l) -> In x l.
Proof. intro H. rewrite <- (firstn_skipn n l). apply in_or_app. now right. Qed.

Lemma filter_all (A : Type) (f : A -> bool) (l : list A) :
  (forall x, In x l -> f x = true) -> filter f l = l.
Proof.
  induction l as [|a l IH]; intro H; [reflexivity|]. cbn [filter].
  rewrite (H a (or_introl eq_refl)). f_equal. apply IH. intros x Hx. apply H. now right.
Qed.

Lemma sheet_smiles_unfold (sheet : list (list value)) :
  sheet_smiles sheet
  = filter keep (map sheet_cell (skipn (sheet_startIndex sheet) sheet)).
Proof.
  unfold sheet_smiles. destruct sheet as [|row rows]; [|reflexivity].
  now destruct (sheet_startIndex []).
Qed.

Lemma sheet_smiles_entries (sheet : list (list value)) (s : str) :
  In s (sheet_smiles sheet) -> keep s = true /\ trim s = s.
Proof.
  rewrite sheet_smiles_unfold. intro H. apply filter_In in H as [H Hk].
  split; [exact Hk|]. apply in_map_iff in H as (row & <- & _). apply sheet_cell_trimmed.
Qed.

(** The header test does not depend on how an empty first cell is read. *)
Lemma headerLike_firstCell (sheet : list (list value)) :
  headerLike (sheet_firstRowFirstCell sheet) = headerLike (spec_firstCell sheet).
Proof.
  unfold sheet_firstRowFirstCell, spec_firstCell, or_else.
  destruct (index (nth 0 sheet []) 0) as [| |[|]|n|s|items|fields]; try reflexivity.
  - cbn [truthy]. destruct (n =? 0)%Z eqn:E; [|reflexivity].
    apply Z.eqb_eq in E; subst n. reflexivity.
  - now destruct s.
Qed.

Lemma headerLike_spec (cell : str) :
  headerLike cell = true <->
  length cell < 50
  /\ (includes (lit "smiles") cell = true \/ includes (lit "compound") cell = true
      \/ includes (lit "molecule") cell = true).
Proof.
  unfold headerLike. rewrite andb_true_iff, !orb_true_iff, Nat.ltb_lt. tauto.
Qed.

Lemma sheet_startIndex_spec (sheet : list (list value)) :
  sheet_startIndex sheet = 1 <->
  1 < length sheet /\ headerLike (spec_firstCell sheet) = true.
Proof.
  unfold sheet_startIndex. rewrite headerLike_firstCell.
  destruct (1 <? length sheet) eqn:E1; cbn [andb].
  - apply Nat.ltb_lt in E1. destruct (headerLike (spec_firstCell sheet)); split;
      intros; try discriminate; try tauto. destruct H; discriminate.
  - apply Nat.ltb_ge in E1. split; [discriminate | intros [H _]; lia].
Qed.

End Sheet.

(** C3, amended.  When the structured parse gives a sheet, the list from the
    file is made of the rows after the header whose first cell is not the
    boolean [false]: their first-column values, stringified and trimmed, of
    which those are kept, in order, that are non-empty, longer than 2
    characters and hold neither smiles nor compound in lowercase.  So a
    sheet with no [false] in its first column gives exactly the list of the
    specification.  Every entry is trimmed and longer than 2 characters; the
    one-row sheet with the cell C gives the empty list. *)
Theorem sheet_candidates
    (env : Env) (content : str) (isBinary : bool) (name : str) (sheet : list (list value)) :
  xlsx_read env content isBinary = FirstSheet sheet ->
  parseFileContent env content isBinary name
  = Ok (filter keep
          (map spec_cell
             (filter (fun row => negb (firstIsFalse row))
                (skipn (sheet_startIndex sheet) sheet))))
  /\ ((forall row, In row sheet -> index row 0 <> VBool false) ->
      parseFileContent env content isBinary name = Ok (spec_sheet_smiles sheet))
  /\ (forall s, In s (sheet_smiles sheet) ->
                trim s = s /\ 2 < length s
                /\ includes (lit "smiles") (toLowerCase s) = false
                /\ includes (lit "compound") (toLowerCase s) = false)
  /\ sheet_smiles [[VStr (lit "C")]] = [].
Proof.
  intro Hx. unfold parseFileContent. rewrite Hx.
  split; [now rewrite sheet_smiles_unfold, sheet_cells_spec|].
  split; [|split; [|reflexivity]].
  - intro Hrows. rewrite sheet_smiles_unfold, sheet_cells_spec.
    unfold spec_sheet_smiles. do 3 f_equal.
    apply filter_all. intros row Hin.
    apply in_skipn in Hin. specialize (Hrows row Hin).
    unfold firstIsFalse. now destruct (index row 0) as [| |[|]|n|s|items|fields].
  - intros s Hs. apply sheet_smiles_entries in Hs as [Hk Ht].
    apply keep_spec in Hk. tauto.
Qed.

Lemma sheet_candidates_witness :
  parseFileContent (parsing [[VStr (lit "SMILES")]; [VStr (lit " CCO ")]; [VNum 0]; [VStr (lit "C")]])
    [] false (lit "set.csv")
  = Ok [lit "CCO"].
Proof.
  exact (proj1 (proj2 (sheet_candidates
                         (parsing [[VStr (lit "SMILES")]; [VStr (lit " CCO ")]; [VNum 0];
                                   [VStr (lit "C")]])
                         [] false (lit "set.csv") _ eq_refl))
           ltac:(intros row [<-|[<-|[<-|[<-|[]]]]]; discriminate)).
Defined.

(** The claim as worded fails on a first cell that holds the boolean
    [false] (the cell FALSE of a CSV or of a workbook): stringified and
    trimmed it passes the filter, the parser drops it. *)
Lemma sheet_candidates_false_cell :
  parseFileContent (parsing [[VBool false]]) [] false (lit "set.csv") = Ok []
  /\ spec_sheet_smiles [[VBool false]] = [lit "false"].
Proof. split; reflexivity. Qed.

(** C2, amended.  In the structured parse the first row is skipped exactly
    when the sheet has more than one row and its first cell, trimmed and
    lowercased, is shorter than 50 characters and holds smiles, compound or
    molecule; the rows read are then the rows after the first, and all rows
    otherwise.  A sheet with the header SMILES over three data values that
    pass the filter gives these three values, and so does the sheet without
    the header, when its first value is not itself header-like.  Under 50
    characters with smiles inside is enough for the skip in a sheet of more
    than one row; it is not needed, as compound and molecule do the same. *)
Theorem sheet_header_rule :
  (forall sheet : list (list value),
      sheet_startIndex sheet = 1 <->
      1 < length sheet
      /\ length (spec_firstCell sheet) < 50
      /\ (includes (lit "smiles") (spec_firstCell sheet) = true
          \/ includes (lit "compound") (spec_firstCell sheet) = true
          \/ includes (lit "molecule") (spec_firstCell sheet) = true))
  /\ (forall sheet : list (list value),
         (sheet_startIndex sheet = 1 /\ skipn (sheet_startIndex sheet) sheet = tl sheet)
         \/ (sheet_startIndex sheet = 0 /\ skipn (sheet_startIndex sheet) sheet = sheet))
  /\ (forall d1 d2 d3 : str,
         keep d1 = true -> keep d2 = true -> keep d3 = true ->
         trim d1 = d1 -> trim d2 = d2 -> trim d3 = d3 ->
         headerLike (toLowerCase d1) = false ->
         sheet_smiles [[VStr (lit "SMILES")]; [VStr d1]; [VStr d2]; [VStr d3]] = [d1; d2; d3]
         /\ sheet_smiles [[VStr d1]; [VStr d2]; [VStr d3]] = [d1; d2; d3])
  /\ (forall sheet : list (list value),
         1 < length sheet -> length (spec_firstCell sheet) < 50 ->
         includes (lit "smiles") (spec_firstCell sheet) = true ->
         sheet_startIndex sheet = 1).
Proof.
  split; [|split; [|split]].
  - intro sheet. rewrite sheet_startIndex_spec, headerLike_spec. tauto.
  - intro sheet. unfold sheet_startIndex.
    destruct ((1 <? length sheet) && headerLike (sheet_firstRowFirstCell sheet));
      [left | right]; split; reflexivity.
  - intros d1 d2 d3 K1 K2 K3 T1 T2 T3 Hh.
    assert (Hcell : forall d, keep d = true -> trim d = d -> sheet_cell [VStr d] = d).
    { intros d K T. unfold sheet_cell. cbn [index nth].
      apply keep_spec in K as [K _]. apply truthy_VStr in K. now rewrite K. }
    split.
    + rewrite sheet_smiles_unfold.
      change (sheet_startIndex [[VStr (lit "SMILES")]; [VStr d1]; [VStr d2]; [VStr d3]]) with 1.
      cbn [skipn map]. rewrite !Hcell by assumption.
      cbn [filter]. now rewrite K1, K2, K3.
    + rewrite sheet_smiles_unfold.
      assert (sheet_startIndex [[VStr d1]; [VStr d2]; [VStr d3]] = 0) as ->.
      { unfold sheet_startIndex, sheet_firstRowFirstCell, or_else. cbn [nth index length].
        apply keep_spec in K1 as [K1 _]. apply truthy_VStr in K1. rewrite K1.
        cbn [toString]. rewrite T1, Hh. reflexivity. }
      cbn [skipn map]. rewrite !Hcell by assumption.
      cbn [filter]. now rewrite K1, K2, K3.
  - intros sheet H1 H2 H3. apply sheet_startIndex_spec. split; [exact H1|].
    apply headerLike_spec. tauto.
Qed.

Lemma sheet_header_rule_witness :
  sheet_smiles [[VStr (lit "SMILES")]; [VStr (lit "CCC")]; [VStr (lit "CCO")]; [VStr (lit "CNC")]]
  = [lit "CCC"; lit "CCO"; lit "CNC"]
  /\ sheet_smiles [[VStr (lit "CCC")]; [VStr (lit "CCO")]; [VStr (lit "CNC")]]
     = [lit "CCC"; lit "CCO"; lit "CNC"]
  /\ sheet_startIndex [[VStr (lit " Smiles (canonical) ")]; [VStr (lit "CCC")]] = 1.
Proof.
  split; [|split].
  - exact (proj1 (proj1 (proj2 (proj2 sheet_header_rule)) (lit "CCC") (lit "CCO") (lit "CNC")
                    eq_refl eq_refl eq_refl eq_refl eq_refl eq_refl eq_refl)).
  - exact (proj2 (proj1 (proj2 (proj2 sheet_header_rule)) (lit "CCC") (lit "CCO") (lit "CNC")
                    eq_refl eq_refl eq_refl eq_refl eq_refl eq_refl eq_refl)).
  - apply (proj2 (proj2 (proj2 sheet_header_rule))); [cbv; lia | cbv; lia | reflexivity].
Defined.

(** The claim as worded fails where it calls smiles necessary and
    sufficient: the header Compound is skipped without holding smiles, and
    the lone row SMILES is not skipped. *)
Lemma header_skip_without_smiles :
  sheet_startIndex [[VStr (lit "Compound")]; [VStr (lit "CCC")]] = 1
  /\ includes (lit "smiles") (spec_firstCell [[VStr (lit "Compound")]; [VStr (lit "CCC")]]) = false
  /\ sheet_smiles [[VStr (lit "Compound")]; [VStr (lit "CCC")]] = [lit "CCC"]
  /\ sheet_startIndex [[VStr (lit "SMILES")]] = 0
  /\ length (spec_firstCell [[VStr (lit "SMILES")]]) = 6
  /\ includes (lit "smiles") (spec_firstCell [[VStr (lit "SMILES")]]) = true.
Proof. repeat split. Qed.

(** ** The file channel: the fallback *)

Section Fallback.

Lemma lines_cell_text (row : str) : lines_cell row = trim (firstField row).
Proof.
  unfold lines_cell. destruct (firstField row); [reflexivity|]. reflexivity.
Qed.

Lemma lines_smiles_unfold (content : str) :
  lines_smiles content
  = filter keep (map (fun row => trim (firstField row))
                   (skipn (lines_startIndex (splitLines content)) (splitLines content))).
Proof.
  unfold lines_smiles. cbv zeta.
  rewrite (map_ext _ _ lines_cell_text).
  destruct (splitLines content) as [|row rows]; [|reflexivity].
  now destruct (lines_startIndex []).
Qed.

(** No line of [splitLines] holds a line feed. *)
Lemma splitLines_no_LF (s : str) :
  Forall (fun row => includesChar LF row = false) (splitLines s).
Proof.
  assert (Hpush : forall c l, char_eqb c LF = false ->
                    Forall (fun row => includesChar LF row = false) l ->
                    Forall (fun row => includesChar LF row = false) (push c l)).
  { intros c [|p ps] Hc Hl; cbn [push].
    - repeat constructor. unfold includesChar; cbn [existsb].
      rewrite Ascii.eqb_sym in Hc. unfold char_eqb in *. now rewrite Hc.
    - inversion Hl; subst. constructor; [|assumption].
      unfold includesChar in *; cbn [existsb].
      rewrite Ascii.eqb_sym in Hc. unfold char_eqb in *. now rewrite Hc. }
  assert (H : forall n s, length s <= n ->
                Forall (fun row => includesChar LF row = false) (splitLines s)).
  { induction n as [|n IH]; intros [|c t] Hn; cbn [length] in Hn;
      try (now repeat constructor); try lia.
    cbn [splitLines]. destruct (char_eqb c LF) eqn:E.
    - constructor; [reflexivity | apply IH; lia].
    - destruct t as [|c' t'].
      + repeat constructor. unfold includesChar; cbn [existsb].
        rewrite Ascii.eqb_sym in E. unfold char_eqb in *. now rewrite E.
      + destruct (char_eqb c CR && char_eqb c' LF).
        * constructor; [reflexivity | apply IH; cbn [length] in Hn; lia].
        * apply Hpush; [exact E | apply IH; lia]. }
  now apply (H (length s)).
Qed.

Lemma splitLines_cons (c : ascii) (t : str) :
  splitLines (c :: t)
  = if char_eqb c LF then [] :: splitLines t
    else match t with
         | c' :: t' =>
             if char_eqb c CR && char_eqb c' LF then [] :: splitLines t'
             else push c (splitLines t)
         | [] => [[c]]
         end.
Proof. now destruct t. Qed.

(** Without carriage returns the lines are the pieces between line feeds. *)
Lemma splitLines_noCR (s : str) :
  includesChar CR s = false ->
  splitLines s = splitClass (fun c => char_eqb c LF) s.
Proof.
  induction s as [|c t IH]; intro H; [reflexivity|].
  unfold includesChar in H. cbn [existsb] in H. apply orb_false_elim in H as [Hc Ht].
  rewrite splitLines_cons. cbn [splitClass].
  destruct (char_eqb c LF); [now rewrite (IH Ht)|].
  unfold char_eqb in Hc. rewrite Ascii.eqb_sym in Hc. fold (char_eqb c CR) in Hc.
  rewrite Hc. cbn [andb]. destruct t as [|c' t']; [reflexivity|]. now rewrite (IH Ht).
Qed.

Lemma join_push (sep : str) (c : ascii) (p : str) (ps : list str) :
  join sep (push c (p :: ps)) = c :: join sep (p :: ps).
Proof. now destruct ps. Qed.

Lemma join_splitClass (c0 : ascii) (s : str) :
  join [c0] (splitClass (fun c => char_eqb c c0) s) = s.
Proof.
  induction s as [|c t IH]; [reflexivity|]. cbn [splitClass].
  destruct (splitClass_cons (fun c => char_eqb c c0) t) as (p & ps & Hp).
  rewrite Hp in *. destruct (char_eqb c c0) eqn:E.
  - apply char_eqb_eq in E; subst c.
    change (join [c0] ([] :: p :: ps)) with (c0 :: join [c0] (p :: ps)). now rewrite IH.
  - now rewrite join_push, IH.
Qed.

Lemma readFileContent_fallback (env : Env) (file : File) (content : str) (isBinary : bool) :
  readFileContent env file = Ok (content, isBinary) ->
  csvFallback isBinary (file_name file)
  = endsWith (lit ".csv") (toLowerCase (file_name file)).
Proof.
  unfold readFileContent, csvFallback.
  set (e := endsWith (lit ".csv") (toLowerCase (file_name file))).
  destruct (reader env file); [|discriminate]. intros [= _ <-].
  destruct e; [reflexivity | apply andb_false_r].
Qed.

End Fallback.

(** C4, amended.  When the structured parse of a file that was read fails
    (the library throws, or the workbook has no sheet) and the name of the
    file ends in .csv, in any case of letters, the parser cuts the text into
    lines, takes of every line after the header the first field, the part
    before the first comma, semicolon or tab, trims it and filters it.  When
    the name does not end in .csv, also for a file that was read as text
    for its MIME type text/csv, the parse throws the error that names Excel
    (xlsx, xls) and CSV, and the submission ends with that message and
    without a request. *)
Theorem parse_failure_fallback
    (env : Env) (file : File) (content : str) (isBinary : bool) :
  readFileContent env file = Ok (content, isBinary) ->
  xlsx_read env content isBinary = XlsxThrows \/ xlsx_read env content isBinary = NoSheets ->
  isBinary = negb (readAsText file)
  /\ (endsWith (lit ".csv") (toLowerCase (file_name file)) = true ->
      parseFileContent env content isBinary (file_name file)
      = Ok (filter
              (fun s =>
                 negb (str_eqb s []) && (2 <? length s)
                 && negb (includes (lit "smiles") (toLowerCase s))
                 && negb (includes (lit "compound") (toLowerCase s)))
              (map (fun row => trim (firstField row))
                 (skipn (lines_startIndex (splitLines content)) (splitLines content))))
      /\ Forall (fun row => includesChar LF row = false) (splitLines content)
      /\ (includesChar CR content = false -> join [LF] (splitLines content) = content)
      /\ (forall row, exists rest,
             row = firstField row ++ rest
             /\ forallb (fun c => negb (fieldSeparator c)) (firstField row) = true
             /\ (rest = [] \/ exists c r, rest = c :: r /\ fieldSeparator c = true)))
  /\ (endsWith (lit ".csv") (toLowerCase (file_name file)) = false ->
      parseFileContent env content isBinary (file_name file) = Throw parseError
      /\ includes (lit "Excel (xlsx, xls) or CSV") parseError = true
      /\ (forall st,
             selectedFile st = Some file ->
             snd (handleSubmit env st) = []
             /\ inputError (fst (handleSubmit env st)) = parseError)).
Proof.
  intros Hread Hx.
  pose proof (readFileContent_fallback env file content isBinary Hread) as Hcsv.
  split; [|split].
  - unfold readFileContent in Hread. destruct (reader env file); [|discriminate].
    injection Hread as _ <-. unfold readAsText. now rewrite negb_orb.
  - intro Hname. rewrite Hname in Hcsv. split; [|split; [|split]].
    + unfold parseFileContent. rewrite Hcsv, lines_smiles_unfold.
      now destruct Hx as [-> | ->].
    + apply splitLines_no_LF.
    + intro Hcr. rewrite (splitLines_noCR content Hcr). apply join_splitClass.
    + intro row. destruct (firstField_prefix row) as (rest & H1 & H2).
      exists rest. split; [exact H1|]. split; [apply firstField_no_separator | exact H2].
  - intro Hname. rewrite Hname in Hcsv.
    assert (Hp : parseFileContent env content isBinary (file_name file) = Throw parseError).
    { unfold parseFileContent. rewrite Hcsv. now destruct Hx as [-> | ->]. }
    split; [exact Hp|]. split; [reflexivity|].
    intros st Hsel.
    assert (Hc : candidateList env st = Throw parseError).
    { unfold candidateList. now rewrite Hsel, Hread. }
    rewrite handleSubmit_cases, Hc. now split.
Qed.

Lemma parse_failure_fallback_witness :
  parseFileContent (unparsed zipLikeText) zipLikeText false (lit "Set.CSV")
  = Ok [lit "PK" ++ [ascii_of_nat 3; ascii_of_nat 4]; lit "CCC"; lit "CCO"]
  /\ parseFileContent (unparsed zipLikeText) zipLikeText true (lit "set.xlsx")
     = Throw parseError.
Proof.
  split.
  - exact (proj1 (proj1 (proj2 (parse_failure_fallback (unparsed zipLikeText)
                                  (mkFile (lit "Set.CSV") (lit "application/vnd.ms-excel"))
                                  zipLikeText false eq_refl (or_introl eq_refl)))
                    eq_refl)).
  - exact (proj1 (proj2 (proj2 (parse_failure_fallback (unparsed zipLikeText)
                                  (mkFile (lit "set.xlsx") [])
                                  zipLikeText true eq_refl (or_introl eq_refl)))
                    eq_refl)).
Defined.

(** The claim as worded fails for a file that is CSV-typed by its MIME
    type only: data.xls of type text/csv is read as text, and when the
    library throws there is no fallback, the parse error is thrown. *)
Lemma csv_typed_without_fallback :
  readAsText (mkFile (lit "data.xls") (lit "text/csv")) = true
  /\ readFileContent (unparsed zipLikeText) (mkFile (lit "data.xls") (lit "text/csv"))
     = Ok (zipLikeText, false)
  /\ xlsx_read (unparsed zipLikeText) zipLikeText false = XlsxThrows
  /\ parseFileContent (unparsed zipLikeText) zipLikeText false (lit "data.xls")
     = Throw parseError
  /\ snd (handleSubmit (unparsed zipLikeText)
            (handleFileChange (Some (mkFile (lit "data.xls") (lit "text/csv"))) initial))
     = []
  /\ inputError
       (fst (handleSubmit (unparsed zipLikeText)
               (handleFileChange (Some (mkFile (lit "data.xls") (lit "text/csv"))) initial)))
     = parseError.
Proof. repeat split. Qed.

(** ** The two parse paths side by side *)

Section TwoPaths.

Lemma lines_startIndex_spec (rows : list str) :
  lines_startIndex rows = 1 <->
  1 < length rows /\ headerLike (lines_firstRowFirstCell rows) = true.
Proof.
  unfold lines_startIndex.
  destruct (1 <? length rows) eqn:E1; cbn [andb].
  - apply Nat.ltb_lt in E1. destruct (headerLike (lines_firstRowFirstCell rows)); split;
      intros; try discriminate; try tauto. destruct H; discriminate.
  - apply Nat.ltb_ge in E1. split; [discriminate | intros [H _]; lia].
Qed.

Lemma sheet_smiles_text (sheet : list (list value)) :
  sheet_smiles sheet
  = filter keep (map trim (skipn (sheet_startIndex sheet) (map sheet_text sheet))).
Proof.
  rewrite sheet_smiles_unfold, skipn_map, map_map.
  now rewrite (map_ext _ _ sheet_cell_text).
Qed.

Lemma lines_smiles_text (content : str) :
  lines_smiles content
  = filter keep (map trim (skipn (lines_startIndex (splitLines content))
                             (map firstField (splitLines content)))).
Proof. now rewrite lines_smiles_unfold, skipn_map, map_map. Qed.

Lemma startIndex_agree (sheet : list (list value)) (rows : list str) :
  map sheet_text sheet = map firstField rows ->
  sheet_startIndex sheet = lines_startIndex rows.
Proof.
  intro H.
  assert (Hlen : length sheet = length rows).
  { apply (f_equal (@Datatypes.length str)) in H. now rewrite !length_map in H. }
  assert (Hfirst : sheet_text (nth 0 sheet []) = firstField (nth 0 rows [])).
  { destruct sheet, rows; try discriminate; [reflexivity | now injection H]. }
  unfold sheet_startIndex, lines_startIndex, lines_firstRowFirstCell.
  change (sheet_firstRowFirstCell sheet) with (toLowerCase (trim (sheet_text (nth 0 sheet [])))).
  now rewrite Hlen, Hfirst.
Qed.

End TwoPaths.

(** C10.  The fallback skips the first line under the rule of the
    structured parse: more than one line, and a first field that, trimmed
    and lowercased, is shorter than 50 characters and holds smiles, compound
    or molecule.  Both paths keep of the trimmed first-column texts after
    the header exactly those that are non-empty, longer than 2 characters
    and hold neither smiles nor compound in lowercase.  So when the sheet
    and the lines of the text have the same first column, row by row, both
    paths skip the same header and extract the same list. *)
Theorem fallback_agrees_with_sheet :
  (forall rows : list str,
      lines_startIndex rows = 1 <->
      1 < length rows
      /\ length (toLowerCase (trim (firstField (nth 0 rows [])))) < 50
      /\ (includes (lit "smiles") (toLowerCase (trim (firstField (nth 0 rows [])))) = true
          \/ includes (lit "compound") (toLowerCase (trim (firstField (nth 0 rows [])))) = true
          \/ includes (lit "molecule") (toLowerCase (trim (firstField (nth 0 rows [])))) = true))
  /\ (forall sheet : list (list value),
         sheet_startIndex sheet = 1 <->
         1 < length sheet
         /\ length (toLowerCase (trim (sheet_text (nth 0 sheet [])))) < 50
         /\ (includes (lit "smiles") (toLowerCase (trim (sheet_text (nth 0 sheet [])))) = true
             \/ includes (lit "compound") (toLowerCase (trim (sheet_text (nth 0 sheet []))))
                = true
             \/ includes (lit "molecule") (toLowerCase (trim (sheet_text (nth 0 sheet []))))
                = true))
  /\ (forall content : str,
         lines_smiles content
         = filter
             (fun s =>
                negb (str_eqb s []) && (2 <? length s)
                && negb (includes (lit "smiles") (toLowerCase s))
                && negb (includes (lit "compound") (toLowerCase s)))
             (map trim (skipn (lines_startIndex (splitLines content))
                          (map firstField (splitLines content)))))
  /\ (forall sheet : list (list value),
         sheet_smiles sheet
         = filter
             (fun s =>
                negb (str_eqb s []) && (2 <? length s)
                && negb (includes (lit "smiles") (toLowerCase s))
                && negb (includes (lit "compound") (toLowerCase s)))
             (map trim (skipn (sheet_startIndex sheet) (map sheet_text sheet))))
  /\ (forall (sheet : list (list value)) (content : str),
         map sheet_text sheet = map firstField (splitLines content) ->
         sheet_startIndex sheet = lines_startIndex (splitLines content)
         /\ sheet_smiles sheet = lines_smiles content).
Proof.
  split; [|split; [|split; [|split]]].
  - intro rows. rewrite lines_startIndex_spec, headerLike_spec. tauto.
  - intro sheet.
    change (toLowerCase (trim (sheet_text (nth 0 sheet []))))
      with (sheet_firstRowFirstCell sheet).
    unfold sheet_startIndex.
    destruct (1 <? length sheet) eqn:E1; cbn [andb].
    + apply Nat.ltb_lt in E1.
      destruct (headerLike (sheet_firstRowFirstCell sheet)) eqn:E2.
      * apply headerLike_spec in E2. tauto.
      * split; [discriminate|]. intros (_ & H2 & H3).
        assert (headerLike (sheet_firstRowFirstCell sheet) = true)
          by (apply headerLike_spec; tauto). congruence.
    + apply Nat.ltb_ge in E1. split; [discriminate | intros [H _]; lia].
  - apply lines_smiles_text.
  - apply sheet_smiles_text.
  - intros sheet content H. pose proof (startIndex_agree sheet _ H) as Hs.
    split; [exact Hs|]. now rewrite sheet_smiles_text, lines_smiles_text, Hs, H.
Qed.

Lemma fallback_agrees_with_sheet_witness :
  sheet_smiles [[VStr (lit "SMILES"); VStr (lit "name")]; [VStr (lit "CCC"); VStr (lit "x")];
                [VStr (lit "C")]; [VStr (lit " CCO ")]]
  = lines_smiles csvExample
  /\ lines_smiles csvExample = [lit "CCC"; lit "CCO"]
  /\ sheet_smiles [[VStr (lit "SMILES"); VStr (lit "name")]; [VStr (lit "CCC"); VStr (lit "x")];
                   [VStr (lit "C")]; [VStr (lit " CCO ")]]
     = [lit "CCC"; lit "CCO"].
Proof.
  split; [|split].
  - exact (proj2 (proj2 (proj2 (proj2 (proj2 fallback_agrees_with_sheet)))
                    [[VStr (lit "SMILES"); VStr (lit "name")]; [VStr (lit "CCC"); VStr (lit "x")];
                     [VStr (lit "C")]; [VStr (lit " CCO ")]]
                    csvExample eq_refl)).
  - exact (proj1 (proj2 (proj2 fallback_agrees_with_sheet)) csvExample).
  - exact (proj1 (proj2 (proj2 (proj2 fallback_agrees_with_sheet)))
             [[VStr (lit "SMILES"); VStr (lit "name")]; [VStr (lit "CCC"); VStr (lit "x")];
              [VStr (lit "C")]; [VStr (lit " CCO ")]]).
Defined.

(** ** The entries of a submitted list *)

Section Entries.

Lemma lines_smiles_entries (content s : str) :
  In s (lines_smiles content) -> keep s = true /\ trim s = s.
Proof.
  rewrite lines_smiles_unfold. intro H. apply filter_In in H as [H Hk].
  split; [exact Hk|]. apply in_map_iff in H as (row & <- & _). apply trim_idem.
Qed.

Lemma text_smiles_entries (text s : str) :
  In s (text_smiles text) -> s <> [] /\ trim s = s.
Proof.
  unfold text_smiles. intro H. apply filter_In in H as [H Hk].
  split; [now apply truthy_VStr|]. apply in_map_iff in H as (p & <- & _). apply trim_idem.
Qed.

Lemma parseFileContent_entries
    (env : Env) (content : str) (isBinary : bool) (name : str) (smiles : list str) (s : str) :
  parseFileContent env content isBinary name = Ok smiles ->
  In s smiles -> keep s = true /\ trim s = s.
Proof.
  unfold parseFileContent.
  destruct (xlsx_read env content isBinary);
    try (destruct (csvFallback isBinary name); [|discriminate]);
    intros [= <-]; (apply lines_smiles_entries || apply sheet_smiles_entries).
Qed.

Lemma handleSubmit_sent (env : Env) (st : State) (smiles : list str) :
  snd (handleSubmit env st) = [smiles] -> candidateList env st = Ok smiles.
Proof.
  rewrite handleSubmit_cases.
  destruct (candidateList env st) as [l|message]; [|discriminate].
  destruct (length l =? 0); [discriminate|].
  destruct (MAX_COMPOUNDS <? length l); [discriminate|].
  cbn. now intros [= ->].
Qed.

End Entries.

(** C6, amended.  Every entry of a list that is sent to the service is a
    trimmed, non-empty string; when the list comes from an uploaded file,
    every entry is also longer than 2 characters. *)
Theorem submitted_entries (env : Env) (st : State) (smiles : list str) :
  snd (handleSubmit env st) = [smiles] ->
  Forall (fun s => trim s = s /\ s <> []) smiles
  /\ (selectedFile st <> None -> Forall (fun s => 2 < length s) smiles).
Proof.
  intro H. apply handleSubmit_sent in H. unfold candidateList in H.
  destruct (selectedFile st) as [file|].
  - destruct (readFileContent env file) as [[content isBinary]|message]; [|discriminate].
    assert (He : forall s, In s smiles -> keep s = true /\ trim s = s)
      by (intros s; now apply (parseFileContent_entries _ _ _ _ _ s H)).
    split; [|intros _]; apply Forall_forall; intros s Hs;
      destruct (He s Hs) as [Hk Ht]; apply keep_spec in Hk; tauto.
  - injection H as <-. split; [|congruence].
    apply Forall_forall. intros s Hs. apply text_smiles_entries in Hs. tauto.
Qed.

Lemma submitted_entries_witness :
  Forall (fun s => 2 < length s) [lit "CCO"].
Proof.
  exact (proj2 (submitted_entries
                  (parsing [[VStr (lit "SMILES")]; [VStr (lit " CCO ")]; [VStr (lit "C")]])
                  (handleFileChange (Some (mkFile (lit "set.csv") (lit "text/csv"))) initial)
                  [lit "CCO"] eq_refl)
           ltac:(discriminate)).
Defined.

(** The claim as worded fails on the text channel, which has no length
    filter: the text C is submitted as the one-entry list C. *)
Lemma short_entry_submitted :
  selectedFile (handleTextChange (lit "C") initial) = None
  /\ snd (handleSubmit offline (handleTextChange (lit "C") initial)) = [[lit "C"]]
  /\ length (lit "C") = 1.
Proof. repeat split. Qed.

(** * Further properties of the handlers *)

(** ** The accepted file names *)

Section FileNames.

Lemma lastIndexOf_from_lastPos (c : ascii) (s : str) :
  forall i found,
    lastIndexOf_from c s i found
    = match lastPos c s with
      | Some k => (i + Z.of_nat k)%Z
      | None => found
      end.
Proof.
  induction s as [|x t IH]; intros i found; cbn [lastIndexOf_from lastPos]; [reflexivity|].
  rewrite IH. destruct (lastPos c t) as [k|]; [lia|].
  destruct (char_eqb x c); [lia | reflexivity].
Qed.

Lemma substring_lastIndexOf (c : ascii) (s : str) :
  substring (lastIndexOf c s) s
  = match lastPos c s with
    | Some k => skipn k s
    | None => s
    end.
Proof.
  unfold substring, lastIndexOf. rewrite lastIndexOf_from_lastPos.
  destruct (lastPos c s) as [k|]; [|reflexivity].
  now replace (Z.to_nat (Z.max 0 (0 + Z.of_nat k))) with k by lia.
Qed.

Lemma lastPos_none (c : ascii) (b : str) : ~ In c b -> lastPos c b = None.
Proof.
  induction b as [|x b IH]; intro H; [reflexivity|]. cbn [lastPos].
  rewrite IH by (intro Hin; apply H; now right).
  destruct (char_eqb x c) eqn:E; [|reflexivity].
  apply char_eqb_eq in E. exfalso. apply H. now left.
Qed.

Lemma lastPos_app (c : ascii) (a b : str) :
  ~ In c b -> lastPos c (a ++ c :: b) = Some (length a).
Proof.
  intro H. induction a as [|x a IH]; cbn [app lastPos length].
  - now rewrite (lastPos_none c b H), char_eqb_refl.
  - now rewrite IH.
Qed.

Lemma startsWith_iff (p s : str) : startsWith p s = true <-> exists r, s = p ++ r.
Proof.
  revert s; induction p as [|x p IH]; intro s; cbn [startsWith].
  - split; [intros _; now exists s | reflexivity].
  - destruct s as [|y s].
    + split; [discriminate | intros [r H]; discriminate].
    + rewrite andb_true_iff, char_eqb_eq, IH. split.
      * intros [-> [r ->]]. now exists r.
      * intros [r H]. injection H as -> ->. split; [reflexivity | now exists r].
Qed.

Lemma endsWith_iff (p s : str) : endsWith p s = true <-> exists a, s = a ++ p.
Proof.
  unfold endsWith. rewrite startsWith_iff. split; intros [r H]; exists (rev r).
  - apply (f_equal (@rev ascii)) in H. rewrite rev_involutive, rev_app_distr in H.
    now rewrite rev_involutive in H.
  - subst s. now rewrite rev_app_distr.
Qed.

Lemma lowerChar_DOT (c : ascii) : lowerChar c = DOT -> c = DOT.
Proof.
  destruct c as [[] [] [] [] [] [] [] []]; vm_compute; intro H;
    try reflexivity; discriminate H.
Qed.

(** The text from the last dot on, lowercased, is the extension [DOT :: q]
    exactly when the lowercased name ends in it. *)
Lemma fileExtension_endsWith (name q : str) :
  ~ In DOT q ->
  str_eqb (fileExtension name) (DOT :: q) = endsWith (DOT :: q) (toLowerCase name).
Proof.
  intro Hq. apply Bool.eq_iff_eq_true. rewrite str_eqb_eq, endsWith_iff.
  unfold fileExtension. rewrite substring_lastIndexOf. split.
  - intro H. destruct (lastPos DOT name) as [k|].
    + exists (toLowerCase (firstn k name)). rewrite <- H. unfold toLowerCase.
      now rewrite <- map_app, firstn_skipn.
    + exists []. now rewrite <- H.
  - intros [u H]. unfold toLowerCase in H.
    apply map_eq_app in H as (a & b & -> & _ & Hb).
    destruct b as [|d b]; [discriminate|]. cbn [map] in Hb. injection Hb as Hd Hb.
    apply lowerChar_DOT in Hd; subst d.
    assert (Hnot : ~ In DOT b).
    { intro Hin. apply Hq. rewrite <- Hb. apply in_map_iff. now exists DOT. }
    rewrite (lastPos_app DOT a b Hnot).
    rewrite skipn_app, skipn_all, Nat.sub_diag. cbn [app skipn toLowerCase map].
    now rewrite Hb.
Qed.

Lemma allowed_acceptedName (f : File) : allowed f = acceptedName (file_name f).
Proof.
  unfold allowed, acceptedName, allowedTypes. cbn [existsb]. rewrite orb_false_r.
  change (lit ".csv") with (DOT :: lit "csv").
  change (lit ".xls") with (DOT :: lit "xls").
  change (lit ".xlsx") with (DOT :: lit "xlsx").
  rewrite !fileExtension_endsWith; [now rewrite orb_assoc | | |];
    cbv; intros H; repeat (destruct H as [H|H]; [discriminate H|]); exact H.
Qed.

End FileNames.

(** X1.  A chosen file becomes the selected file exactly when its name,
    lowercased, ends in .csv, .xls or .xlsx; any other file, also one whose
    name has no dot, leaves no file selected. *)
Theorem file_selected_iff_accepted_name (f : File) (st : State) :
  selectedFile (handleFileChange (Some f) st)
  = if acceptedName (file_name f) then Some f else None.
Proof.
  rewrite <- allowed_acceptedName. unfold handleFileChange. fold (allowed f).
  now destruct (allowed f).
Qed.

(** ** The states between events *)

Section Settled.

Variable env : Env.

Lemma handleSubmit_keeps (st : State) :
  textareaValue (fst (handleSubmit env st)) = textareaValue st
  /\ selectedFile (fst (handleSubmit env st)) = selectedFile st
  /\ fileName (fst (handleSubmit env st)) = fileName st
  /\ isLoading (fst (handleSubmit env st)) = false.
Proof.
  rewrite handleSubmit_cases.
  destruct (candidateList env st) as [smiles|message]; [|now repeat split].
  destruct (length smiles =? 0); [now repeat split|].
  destruct (MAX_COMPOUNDS <? length smiles); now repeat split.
Qed.

Lemma step_settled (st : State) (e : event) : settled st -> settled (step env st e).
Proof.
  unfold settled. intros [Hl Hs].
  destruct e as [[f|]|v| |]; cbn [step].
  - unfold handleFileChange. fold (allowed f). rewrite allowed_acceptedName.
    destruct (acceptedName (file_name f)) eqn:E; cbn; now repeat split.
  - cbn. now split.
  - cbn. now split.
  - destruct (submitDisabled st); [now split|].
    destruct (handleSubmit_keeps st) as (_ & -> & -> & ->). now split.
  - cbn. now split.
Qed.

Lemma run_settled (events : list event) : settled (run env events).
Proof.
  unfold run. assert (H : settled initial) by (now split).
  revert H. generalize initial.
  induction events as [|e events IH]; intros st H; [exact H|].
  cbn [fold_left]. apply IH. now apply step_settled.
Qed.

Lemma messageOf_nonempty (message : str) : messageOf message <> [].
Proof. unfold messageOf. now destruct message. Qed.

Lemma apiErrorPanel_errorResult (st : State) (v : value) :
  results st = errorResult v -> truthy v = true -> apiErrorPanel st = Some v.
Proof.
  intros H Ht. unfold apiErrorPanel. rewrite H.
  change (get (errorResult v) (lit "error")) with v.
  cbn [errorResult truthy andb]. now rewrite Ht.
Qed.

Lemma truthy_or_else (a b : value) : truthy b = true -> truthy (or_else a b) = true.
Proof. intro H. unfold or_else. now destruct (truthy a) eqn:E. Qed.

End Settled.

Section Pending.

Variable env : Env.

Lemma submitting_fileShown (st : State) : fileShown st -> fileShown (submitting st).
Proof. now destruct st. Qed.

Lemma handleSubmit_fileShown (st : State) :
  fileShown st -> fileShown (fst (handleSubmit env st)).
Proof.
  unfold fileShown. destruct (handleSubmit_keeps env st) as (_ & -> & -> & _).
  exact (fun H => H).
Qed.

Lemma stepAsync_fileShown (st : State) (t : tick) :
  fileShown st -> fileShown (stepAsync env st t).
Proof.
  intro H. destruct t as [e|]; cbn [stepAsync];
    destruct (isLoading st) eqn:El; try exact H; [|now apply handleSubmit_fileShown].
  assert (Hs : fileShown (step env st e)).
  { apply (proj2 (step_settled env st e (conj El H))). }
  destruct e; try exact Hs.
  destruct (submitDisabled st); [exact H|].
  destruct (awaits env st); [now apply submitting_fileShown | now apply handleSubmit_fileShown].
Qed.

End Pending.

(** X2.  In every state the component shows, also while a submission is
    pending with the loading flag on, the file name shown is the name of
    the selected file, which ends in an accepted extension, or is empty
    when no file is selected. *)
Theorem file_name_shown (env : Env) (ticks : list tick) :
  match selectedFile (runAsync env ticks) with
  | Some f =>
      acceptedName (file_name f) = true /\ fileName (runAsync env ticks) = file_name f
  | None => fileName (runAsync env ticks) = []
  end.
Proof.
  change (fileShown (runAsync env ticks)). unfold runAsync.
  assert (H : fileShown initial) by reflexivity.
  revert H. generalize initial.
  induction ticks as [|t ticks IH]; intros st H; [exact H|].
  cbn [fold_left]. apply IH. now apply stepAsync_fileShown.
Qed.

(** X3.  Clear All brings the component from any state it reaches back to
    the state of the first render: no text, no file, no message, no
    results. *)
Theorem clear_restores_initial (env : Env) (events : list event) :
  clearInputs (run env events) = initial
  /\ run env (events ++ [ClearClicked]) = initial.
Proof.
  assert (H : clearInputs (run env events) = initial).
  { destruct (run_settled env events) as [Hl _]. revert Hl.
    generalize (run env events). intros [text file name res loading err] Hl.
    cbn in Hl. subst loading. reflexivity. }
  split; [exact H|]. unfold run in *. now rewrite fold_left_app.
Qed.

(** X4.  A submission leaves the text, the selected file and its name as
    they were and ends with the loading flag off.  It ends in one of two
    ways: no request was sent, a non-empty message is shown and the results
    are cleared; or one request was sent, no message is shown and the
    results are what the answer gives. *)
Theorem submit_outcome (env : Env) (st : State) :
  textareaValue (fst (handleSubmit env st)) = textareaValue st
  /\ selectedFile (fst (handleSubmit env st)) = selectedFile st
  /\ fileName (fst (handleSubmit env st)) = fileName st
  /\ isLoading (fst (handleSubmit env st)) = false
  /\ ((snd (handleSubmit env st) = []
       /\ inputError (fst (handleSubmit env st)) <> []
       /\ results (fst (handleSubmit env st)) = VNull)
      \/ (exists smiles,
             snd (handleSubmit env st) = [smiles]
             /\ inputError (fst (handleSubmit env st)) = []
             /\ results (fst (handleSubmit env st)) = resultsOf (service env smiles))).
Proof.
  destruct (handleSubmit_keeps env st) as (H1 & H2 & H3 & H4).
  repeat (split; [assumption|]).
  rewrite handleSubmit_cases.
  destruct (candidateList env st) as [smiles|message].
  - destruct (length smiles =? 0).
    + left. repeat split. cbn. unfold emptyMessage. now destruct (selectedFile st).
    + destruct (MAX_COMPOUNDS <? length smiles).
      * left. repeat split. cbn. discriminate.
      * right. now exists smiles.
  - left. repeat split. cbn. apply messageOf_nonempty.
Qed.

(** X5.  When a request was sent and the answer is a failure (the request
    was rejected, the body is not JSON, or the status is outside 200..299),
    the results are an object with a truthy error, whatever the body holds:
    the condition of the API Error panel holds and that of the table, the
    charts and the export does not.  When the status is within 200..299 and
    the body is JSON, the results are the decoded body itself. *)
Theorem failure_is_shown (env : Env) (st : State) (smiles : list str) :
  snd (handleSubmit env st) = [smiles] ->
  (failed (service env smiles) = true ->
   truthy (results (fst (handleSubmit env st))) = true
   /\ truthy (get (results (fst (handleSubmit env st))) (lit "error")) = true)
  /\ (forall status data,
         service env smiles = Response status (Json data) -> ok status = true ->
         results (fst (handleSubmit env st)) = data).
Proof.
  intro Hsent. apply handleSubmit_results in Hsent. split.
  - intro Hf.
    assert (H : exists v, resultsOf (service env smiles) = errorResult v /\ truthy v = true).
    { destruct (service env smiles) as [message|status [data|message]];
        cbn [failed resultsOf] in *; try (eexists; split; reflexivity).
      rewrite Hf.
      destruct data; try (eexists; split; reflexivity);
        (eexists; split; [reflexivity | now apply truthy_or_else]). }
    destruct H as (v & Hr & Ht). rewrite Hsent, Hr. split; [reflexivity|].
    change (get (errorResult v) (lit "error")) with v. exact Ht.
  - intros status data Hr Hok. rewrite Hsent, Hr. cbn [resultsOf]. now rewrite Hok.
Qed.

Lemma failure_is_shown_witness :
  truthy (results (fst (handleSubmit (answering 502 (Json (VObj [(lit "detail", VNum 7)])))
                          (handleTextChange (lit "CCC") initial)))) = true
  /\ truthy (get (results (fst (handleSubmit
                                  (answering 502 (Json (VObj [(lit "detail", VNum 7)])))
                                  (handleTextChange (lit "CCC") initial))))
               (lit "error")) = true.
Proof.
  exact (proj1 (failure_is_shown (answering 502 (Json (VObj [(lit "detail", VNum 7)])))
                  (handleTextChange (lit "CCC") initial) [lit "CCC"] eq_refl)
           eq_refl).
Defined.

(** ** The textarea again *)

Section TextAgain.

Lemma trimStart_forallb (P : ascii -> bool) (s : str) :
  forallb P s = true -> forallb P (trimStart s) = true.
Proof.
  induction s as [|c s IH]; [reflexivity|]. intro H. cbn [trimStart].
  destruct (isWhiteSpace c); [|exact H].
  cbn [forallb] in H. apply andb_prop in H as [_ H]. now apply IH.
Qed.

Lemma trim_forallb (P : ascii -> bool) (s : str) :
  forallb P s = true -> forallb P (trim s) = true.
Proof.
  intro H. unfold trim, trimEnd. rewrite forallb_rev. apply trimStart_forallb.
  rewrite forallb_rev. now apply trimStart_forallb.
Qed.

Lemma trim_nil_iff (x : str) : trim x = [] <-> forallb isWhiteSpace x = true.
Proof. split; [apply trim_nil_inv | apply trim_all_ws]. Qed.

Lemma clean_one_nil (x : str) : clean [x] = [] <-> trim x = [].
Proof.
  unfold clean. cbn [map filter].
  destruct (trim x) as [|c t]; cbn [truthy str_eqb negb]; split; congruence.
Qed.

Lemma blank_spec (c : ascii) : isWhiteSpace c || newlineOrComma c = blank c.
Proof.
  unfold blank, newlineOrComma. destruct (char_eqb c LF) eqn:E; [|reflexivity].
  apply char_eqb_eq in E. now subst c.
Qed.

Lemma clean_pushes_nil (s x : str) :
  clean (pushes x (splitClass newlineOrComma s)) = []
  <-> forallb isWhiteSpace x = true /\ forallb blank s = true.
Proof.
  revert x; induction s as [|c s IH]; intro x; cbn [splitClass forallb].
  - cbn [pushes]. rewrite app_nil_r, clean_one_nil, trim_nil_iff. tauto.
  - rewrite <- blank_spec. destruct (newlineOrComma c) eqn:E.
    + cbn [pushes]. rewrite app_nil_r, clean_cons.
      rewrite <- (pushes_nil_splitClass newlineOrComma s).
      rewrite orb_true_r. cbn [andb]. split.
      * intro H. apply app_eq_nil in H as [H1 H2].
        apply clean_one_nil, trim_nil_iff in H1. apply IH in H2. tauto.
      * intros [H1 H2]. apply trim_nil_iff, clean_one_nil in H1.
        rewrite H1. apply IH. now split.
    + rewrite pushes_push, IH, forallb_app. cbn [forallb].
      rewrite orb_false_r, andb_true_r, !andb_true_iff. tauto.
Qed.

Lemma splitClass_free (d : ascii -> bool) (p : str) :
  forallb (fun c => negb (d c)) p = true -> splitClass d p = [p].
Proof.
  induction p as [|c p IH]; [reflexivity|]. cbn [forallb splitClass]. intro H.
  apply andb_prop in H as [Hc Hp]. apply negb_true_iff in Hc. now rewrite Hc, (IH Hp).
Qed.

Lemma splitClass_join (d : ascii -> bool) (sep : ascii) (l : list str) :
  d sep = true -> l <> [] ->
  Forall (fun p => forallb (fun c => negb (d c)) p = true) l ->
  splitClass d (join [sep] l) = l.
Proof.
  intros Hsep. induction l as [|p l IH]; intros Hne Hl; [congruence|].
  inversion Hl as [|? ? Hp Hrest]; subst. destruct l as [|q r].
  - now apply splitClass_free.
  - change (join [sep] (p :: q :: r)) with (p ++ sep :: join [sep] (q :: r)).
    rewrite (splitClass_app d p _ sep Hsep), (splitClass_free d p Hp).
    now rewrite IH.
Qed.

Lemma clean_fixed (l : list str) :
  Forall (fun s => trim s = s /\ s <> []) l -> clean l = l.
Proof.
  induction l as [|s l IH]; intro H; [reflexivity|].
  inversion H as [|? ? [Ht Hs] Hl]; subst. rewrite clean_cons, (IH Hl).
  unfold clean. cbn [map filter]. rewrite Ht.
  apply truthy_VStr in Hs. now rewrite Hs.
Qed.

Lemma spec_text_smiles_entries (text : str) :
  Forall (fun s => trim s = s /\ s <> []) (spec_text_smiles text)
  /\ Forall (fun s => forallb (fun c => negb (newlineOrComma c)) s = true)
       (spec_text_smiles text).
Proof.
  split; apply Forall_forall; intros s Hs; unfold spec_text_smiles in Hs;
    apply filter_In in Hs as [Hs Hk]; apply in_map_iff in Hs as (p & <- & Hp).
  - split; [apply trim_idem|]. intro E. now rewrite E in Hk.
  - apply trim_forallb.
    pose proof (splitClass_pieces newlineOrComma text) as H.
    rewrite Forall_forall in H. now apply H.
Qed.

Lemma spec_text_smiles_join (sep : ascii) (text : str) :
  newlineOrComma sep = true ->
  spec_text_smiles (join [sep] (spec_text_smiles text)) = spec_text_smiles text.
Proof.
  intro Hsep. destruct (spec_text_smiles_entries text) as [H1 H2].
  destruct (spec_text_smiles text) as [|s l] eqn:E; [reflexivity|].
  rewrite spec_text_smiles_clean, (splitClass_join newlineOrComma sep (s :: l) Hsep);
    [now apply clean_fixed | discriminate | exact H2].
Qed.

End TextAgain.

(** X6.  The textarea gives an empty list exactly when it holds nothing
    but white space and commas. *)
Theorem text_smiles_empty_iff (text : str) :
  text_smiles text = [] <-> forallb blank text = true.
Proof.
  rewrite text_smiles_spec, spec_text_smiles_clean.
  rewrite <- (pushes_nil_splitClass newlineOrComma text), clean_pushes_nil.
  cbn [forallb]. tauto.
Qed.

(** X7.  No entry the textarea gives holds a line feed or a comma, and the
    list is a fixed point of the normalizer: joined again with commas, or
    with line feeds, it is read back as the same list. *)
Theorem text_smiles_round_trip (text : str) :
  Forall (fun s => forallb (fun c => negb (newlineOrComma c)) s = true) (text_smiles text)
  /\ text_smiles (join [COMMA] (text_smiles text)) = text_smiles text
  /\ text_smiles (join [LF] (text_smiles text)) = text_smiles text.
Proof.
  rewrite !text_smiles_spec. split; [apply spec_text_smiles_entries|].
  split; now apply spec_text_smiles_join.
Qed.

(** ** The fallback against the textarea *)

Section PastedColumn.

Lemma push_lineOf (c : ascii) (l1 l2 : list str) :
  l1 <> [] -> Forall2 lineOf l1 l2 -> Forall2 lineOf (push c l1) (push c l2).
Proof.
  intros Hne H. destruct H as [|a b l1 l2 Hab Hl]; [congruence|].
  cbn [push]. constructor; [|exact Hl].
  destruct Hab as [-> | ->]; [now left | now right].
Qed.

Lemma splitLines_nonempty (s : str) : splitLines s <> [].
Proof.
  destruct s as [|c t]; [discriminate|]. rewrite splitLines_cons.
  destruct (char_eqb c LF); [discriminate|].
  destruct t as [|c' t']; [discriminate|].
  destruct (char_eqb c CR && char_eqb c' LF); [discriminate|].
  destruct (splitLines (c' :: t')); discriminate.
Qed.

Lemma splitLines_lineOf (s : str) : Forall2 lineOf (splitLines s) (splitClass isLF s).
Proof.
  assert (H : forall n s, length s <= n ->
                Forall2 lineOf (splitLines s) (splitClass isLF s)).
  { induction n as [|n IH]; intros [|c t] Hn; cbn [length] in Hn; try lia;
      try (constructor; [now left | constructor]).
    rewrite splitLines_cons. cbn [splitClass]. unfold isLF at 1.
    destruct (char_eqb c LF) eqn:E.
    - constructor; [now left | apply IH; lia].
    - destruct t as [|c' t'].
      + constructor; [now left | constructor].
      + destruct (char_eqb c CR && char_eqb c' LF) eqn:E2.
        * apply andb_prop in E2 as [Ec Ec'].
          apply char_eqb_eq in Ec; subst c. cbn [splitClass]. unfold isLF at 1.
          rewrite Ec'. cbn [push]. constructor; [now right|].
          apply IH. cbn [length] in Hn. lia.
        * apply push_lineOf; [apply splitLines_nonempty | apply IH; lia]. }
  now apply (H (length s)).
Qed.

Lemma lineOf_trim (l1 l2 : list str) : Forall2 lineOf l1 l2 -> map trim l1 = map trim l2.
Proof.
  induction 1 as [|a b l1 l2 Hab Hl IH]; [reflexivity|]. cbn [map]. rewrite IH. f_equal.
  destruct Hab as [-> | ->]; [reflexivity|]. now rewrite trim_ws_r.
Qed.

Lemma splitClass_forallb (P : ascii -> bool) (d : ascii -> bool) (s : str) :
  forallb P s = true -> Forall (fun p => forallb P p = true) (splitClass d s).
Proof.
  induction s as [|c s IH]; intro H; [now repeat constructor|].
  cbn [forallb] in H. apply andb_prop in H as [Hc Hs]. specialize (IH Hs).
  cbn [splitClass]. destruct (d c); [now constructor|].
  destruct (splitClass d s) as [|p ps]; cbn [push].
  - repeat constructor. cbn [forallb]. now rewrite Hc.
  - inversion IH; subst. constructor; [|assumption]. cbn [forallb]. now rewrite Hc.
Qed.

Lemma lineOf_forallb (P : ascii -> bool) (l1 l2 : list str) :
  Forall2 lineOf l1 l2 -> Forall (fun p => forallb P p = true) l2 ->
  Forall (fun p => forallb P p = true) l1.
Proof.
  induction 1 as [|a b l1 l2 Hab Hl IH]; intro H; [constructor|].
  inversion H as [|? ? Hb Hrest]; subst. constructor; [|now apply IH].
  destruct Hab as [-> | ->]; [exact Hb|].
  rewrite forallb_app in Hb. now apply andb_prop in Hb as [Hb _].
Qed.

Lemma splitClass_ext (d d' : ascii -> bool) (s : str) :
  Forall (fun c => d c = d' c) s -> splitClass d s = splitClass d' s.
Proof.
  induction 1 as [|c s Hc Hs IH]; [reflexivity|]. cbn [splitClass]. now rewrite Hc, IH.
Qed.

Lemma firstField_free (row : str) :
  forallb (fun c => negb (fieldSeparator c)) row = true -> firstField row = row.
Proof. intro H. unfold firstField. now rewrite (splitClass_free fieldSeparator row H). Qed.

Lemma filter_keep_truthy (l : list str) :
  filter keep (filter (fun s => negb (str_eqb s [])) l) = filter keep l.
Proof.
  induction l as [|s l IH]; [reflexivity|]. cbn [filter].
  destruct s as [|c s]; cbn [str_eqb negb]; [now rewrite keep_nil|].
  cbn [filter]. now rewrite IH.
Qed.

Lemma map_trim_firstField (l : list str) :
  Forall (fun row => forallb (fun c => negb (fieldSeparator c)) row = true) l ->
  map (fun row => trim (firstField row)) l = map trim l.
Proof.
  induction 1 as [|row l Hrow Hl IH]; [reflexivity|].
  cbn [map]. now rewrite IH, (firstField_free row Hrow).
Qed.

Lemma free_of_comma (content : str) :
  forallb (fun c => negb (fieldSeparator c)) content = true ->
  Forall (fun c => newlineOrComma c = isLF c) content.
Proof.
  intro H. apply Forall_forall. intros c Hc.
  rewrite forallb_forall in H. specialize (H c Hc).
  unfold fieldSeparator in H. unfold newlineOrComma, isLF.
  destruct (char_eqb c COMMA); [discriminate H | apply orb_false_r].
Qed.

End PastedColumn.

(** X8.  For a text without comma, semicolon or tab whose first line does
    not hold the word molecule, the line-splitting fallback extracts what
    the textarea would extract from the same text, less the entries the
    file filter drops: those of at most 2 characters and those that hold
    smiles or compound. *)
Theorem fallback_agrees_with_textarea (content : str) :
  forallb (fun c => negb (fieldSeparator c)) content = true ->
  includes (lit "molecule") (lines_firstRowFirstCell (splitLines content)) = false ->
  lines_smiles content = filter keep (text_smiles content).
Proof.
  intros Hfree Hmol.
  assert (Hrows : Forall (fun row => forallb (fun c => negb (fieldSeparator c)) row = true)
                    (splitLines content)).
  { apply (lineOf_forallb _ _ _ (splitLines_lineOf content)).
    now apply splitClass_forallb. }
  assert (Hall : filter keep (map trim (splitLines content))
                 = filter keep (text_smiles content)).
  { rewrite text_smiles_spec. unfold spec_text_smiles.
    rewrite (splitClass_ext newlineOrComma isLF content (free_of_comma content Hfree)).
    rewrite <- (lineOf_trim _ _ (splitLines_lineOf content)).
    now rewrite filter_keep_truthy. }
  rewrite lines_smiles_unfold, <- Hall.
  destruct (lines_startIndex (splitLines content)) as [|[|k]] eqn:E.
  - cbn [skipn]. now rewrite map_trim_firstField.
  - apply lines_startIndex_spec in E as [Hlen Hh].
    unfold lines_firstRowFirstCell in *.
    destruct (splitLines content) as [|r0 rest]; [cbn in Hlen; lia|].
    cbn [nth] in *. inversion Hrows as [|? ? Hr0 Hrest]; subst.
    rewrite (firstField_free r0 Hr0) in *.
    cbn [skipn map]. rewrite (map_trim_firstField rest Hrest).
    rewrite (filter_keep_cons (trim r0)).
    assert (Hk : keep (trim r0) = false).
    { unfold keep. apply headerLike_spec in Hh as [_ [H|[H|H]]].
      - rewrite H. cbn [negb]. now rewrite andb_false_r.
      - rewrite H. cbn [negb]. now rewrite andb_false_r.
      - congruence. }
    cbn [filter]. now rewrite Hk.
  - exfalso. unfold lines_startIndex in E.
    now destruct ((1 <? length (splitLines content))
                  && headerLike (lines_firstRowFirstCell (splitLines content))).
Qed.

Lemma fallback_agrees_with_textarea_witness :
  lines_smiles (lit "Compound" ++ [CR; LF] ++ lit "CCC" ++ [CR; LF] ++ lit "C" ++ [LF] ++ lit " CCO ")
  = filter keep
      (text_smiles (lit "Compound" ++ [CR; LF] ++ lit "CCC" ++ [CR; LF] ++ lit "C" ++ [LF]
                    ++ lit " CCO ")).
Proof.
  exact (fallback_agrees_with_textarea
           (lit "Compound" ++ [CR; LF] ++ lit "CCC" ++ [CR; LF] ++ lit "C" ++ [LF] ++ lit " CCO ")
           eq_refl eq_refl).
Defined.

(** ** The export read back *)

Section ExportReadBack.

Lemma read_quoted (s acc : str) (record : list str) (rest : str) :
  readCSV_from InQuoted acc record (doubleQuotes s ++ DQUOTE :: rest)
  = readCSV_from AfterQuote (acc ++ s) record rest.
Proof.
  revert acc; induction s as [|c s IH]; intro acc.
  - cbn [doubleQuotes flat_map app readCSV_from]. now rewrite char_eqb_refl, app_nil_r.
  - rewrite doubleQuotes_cons. destruct (char_eqb c DQUOTE) eqn:E.
    + apply char_eqb_eq in E; subst c. cbn [app readCSV_from].
      rewrite !char_eqb_refl, IH. now rewrite <- app_assoc.
    + cbn [app readCSV_from]. rewrite E, IH. now rewrite <- app_assoc.
Qed.

Lemma read_plain (s acc : str) (record : list str) (rest : str) :
  includesChar COMMA s = false -> includesChar LF s = false ->
  readCSV_from InPlain acc record (s ++ rest)
  = readCSV_from InPlain (acc ++ s) record rest.
Proof.
  revert acc; induction s as [|c s IH]; intros acc Hc Hl.
  - now rewrite app_nil_r.
  - unfold includesChar in Hc, Hl. cbn [existsb] in Hc, Hl.
    apply orb_false_elim in Hc as [Hc Hc']. apply orb_false_elim in Hl as [Hl Hl'].
    unfold char_eqb in Hc, Hl. rewrite Ascii.eqb_sym in Hc, Hl.
    cbn [app readCSV_from]. unfold char_eqb at 1 2. rewrite Hc, Hl.
    rewrite (IH (acc ++ [c]) Hc' Hl'). now rewrite <- app_assoc.
Qed.

Lemma read_fieldEnd (mode : csvMode) (field : str) (record : list str) (rest : str) :
  fieldEnd rest ->
  mode = AfterQuote \/ mode = InPlain \/ (mode = FieldStart /\ field = []) ->
  readCSV_from mode field record rest = finishField field record rest.
Proof.
  intros Hrest Hmode. destruct rest as [|c t]; [reflexivity|].
  destruct Hrest as [-> | ->];
    destruct Hmode as [-> | [-> | [-> ->]]]; reflexivity.
Qed.

Lemma needsQuoting_false (s : str) :
  needsQuoting s = false ->
  includesChar COMMA s = false /\ includesChar DQUOTE s = false
  /\ includesChar LF s = false.
Proof.
  unfold needsQuoting. intro H.
  apply orb_false_elim in H as [H _]. apply orb_false_elim in H as [H H3].
  apply orb_false_elim in H as [H1 H2]. now repeat split.
Qed.

(** The reader takes an escaped field for the text of its value. *)
Lemma read_field (v : value) (record : list str) (rest : str) :
  fieldEnd rest ->
  readCSV_from FieldStart [] record (escapeCSVField v ++ rest)
  = finishField (fieldText v) record rest.
Proof.
  intro Hrest. rewrite escapeCSVField_fieldText.
  destruct (needsQuoting (fieldText v)) eqn:E.
  - rewrite <- !app_assoc. cbn [app readCSV_from]. rewrite char_eqb_refl.
    rewrite read_quoted. cbn [app]. apply read_fieldEnd; [exact Hrest | now left].
  - destruct (needsQuoting_false _ E) as (Hc & Hq & Hl).
    destruct (fieldText v) as [|c s].
    + cbn [app]. apply read_fieldEnd; [exact Hrest | right; right; now split].
    + unfold includesChar in Hc, Hq, Hl. cbn [existsb] in Hc, Hq, Hl.
      apply orb_false_elim in Hc as [Hc Hc']. apply orb_false_elim in Hq as [Hq _].
      apply orb_false_elim in Hl as [Hl Hl'].
      unfold char_eqb in Hc, Hq, Hl. rewrite Ascii.eqb_sym in Hc, Hq, Hl.
      cbn [app readCSV_from]. unfold char_eqb at 1 2 3. rewrite Hq, Hc, Hl.
      rewrite (read_plain s _ record rest Hc' Hl'). cbn [app].
      apply read_fieldEnd; [exact Hrest | right; now left].
Qed.

(** And a line of escaped fields for the texts of its values. *)
Lemma read_line (fields : list value) :
  forall (v : value) (record : list str) (rest : str),
    recordEnd rest ->
    readCSV_from FieldStart [] record (csvLine (v :: fields) ++ rest)
    = match rest with
      | [] => [record ++ map fieldText (v :: fields)]
      | _ :: t => (record ++ map fieldText (v :: fields)) :: readCSV_from FieldStart [] [] t
      end.
Proof.
  unfold csvLine. induction fields as [|w fields IH]; intros v record rest Hrest.
  - cbn [map join]. rewrite read_field.
    + destruct rest as [|c t]; [reflexivity|]. cbn in Hrest; subst c. reflexivity.
    + destruct rest as [|c t]; [exact I | now right].
  - change (join [COMMA] (map escapeCSVField (v :: w :: fields)))
      with (escapeCSVField v ++ COMMA :: join [COMMA] (map escapeCSVField (w :: fields))).
    rewrite <- app_assoc. cbn [app]. rewrite read_field by (now left).
    cbn [finishField]. rewrite char_eqb_refl, (IH w _ rest Hrest).
    cbn [map]. now rewrite <- !app_assoc.
Qed.

Lemma read_lines (rows : list (value * list value)) :
  rows <> [] ->
  readCSV (join [LF] (map (fun r => csvLine (fst r :: snd r)) rows))
  = map (fun r => map fieldText (fst r :: snd r)) rows.
Proof.
  unfold readCSV. induction rows as [|r rows IH]; intro Hne; [congruence|].
  destruct rows as [|r' rows].
  - cbn [map join]. rewrite <- (app_nil_r (csvLine _)). now rewrite read_line.
  - change (join [LF] (map (fun r => csvLine (fst r :: snd r)) (r :: r' :: rows)))
      with (csvLine (fst r :: snd r)
            ++ LF :: join [LF] (map (fun r => csvLine (fst r :: snd r)) (r' :: rows))).
    rewrite read_line by reflexivity. cbn [app map]. f_equal.
    apply IH. discriminate.
Qed.

End ExportReadBack.

(** X9.  The export of a non-empty table whose values all print, read
    back as CSV, is the header record followed by one record per table row,
    whose five fields are the texts of the row's values: no comma, quote or
    line break in a value moves a field or a record.  An empty table gives
    no export. *)
Theorem export_reads_back (tableData : list TableRow) :
  Forall (fun item => forallb printable (rowFields item) = true) tableData ->
  option_map readCSV (handleExportCSV tableData)
  = match tableData with
    | [] => None
    | _ => Some (csvHeaders :: map (fun item => map fieldText (rowFields item)) tableData)
    end.
Proof.
  intros _. destruct tableData as [|item items]; [reflexivity|].
  unfold handleExportCSV. cbn [option_map]. f_equal.
  pose (asRow := fun item : TableRow =>
                   (row_id item,
                    [row_smiles item; row_type item; row_class item; row_ic50 item])).
  pose (header := (VStr (lit "ID"),
                   [VStr (lit "Compound (SMILES)"); VStr (lit "Type"); VStr (lit "Class");
                    VStr (lit "IC50 (nM)")])).
  assert (H1 : join [COMMA] csvHeaders
               :: map (fun item =>
                         join [COMMA]
                           [escapeCSVField (row_id item); escapeCSVField (row_smiles item);
                            escapeCSVField (row_type item); escapeCSVField (row_class item);
                            escapeCSVField (row_ic50 item)])
                    (item :: items)
               = map (fun r => csvLine (fst r :: snd r))
                   (header :: map asRow (item :: items))).
  { rewrite (map_cons _ header), map_map. reflexivity. }
  assert (H2 : csvHeaders :: map (fun item => map fieldText (rowFields item)) (item :: items)
               = map (fun r => map fieldText (fst r :: snd r))
                   (header :: map asRow (item :: items))).
  { rewrite (map_cons _ header), map_map. reflexivity. }
  rewrite H1, H2. apply read_lines. discriminate.
Qed.

Lemma export_reads_back_witness :
  option_map readCSV
    (handleExportCSV
       [mkRow (VNum 1) (VStr (lit "C,C")) (VStr (lit "Inhibitor")) (VNum 0) (VStr (lit "12.00"));
        mkRow (VNum 2) (VStr (lit "say " ++ [DQUOTE] ++ lit "hi" ++ [DQUOTE; LF]))
          (VStr (lit "Decoy")) (VStr (lit "N/A")) (VStr (lit "N/A"))])
  = Some [csvHeaders;
          [lit "1"; lit "C,C"; lit "Inhibitor"; lit "0"; lit "12.00"];
          [lit "2"; lit "say " ++ [DQUOTE] ++ lit "hi" ++ [DQUOTE; LF]; lit "Decoy"; lit "N/A";
           lit "N/A"]].
Proof.
  exact (export_reads_back
           [mkRow (VNum 1) (VStr (lit "C,C")) (VStr (lit "Inhibitor")) (VNum 0)
              (VStr (lit "12.00"));
            mkRow (VNum 2) (VStr (lit "say " ++ [DQUOTE] ++ lit "hi" ++ [DQUOTE; LF]))
              (VStr (lit "Decoy")) (VStr (lit "N/A")) (VStr (lit "N/A"))]
           ltac:(repeat constructor)).
Defined.

(** ** The bar chart *)

Section BarChart.

Lemma str_eqb_sym (a b : str) : str_eqb a b = str_eqb b a.
Proof. apply Bool.eq_iff_eq_true. rewrite !str_eqb_eq. split; congruence. Qed.

Lemma count_of_set (k k' : str) (n : Z) (acc : list (str * Z)) :
  count_of k (set_count k' n acc) = if str_eqb k k' then n else count_of k acc.
Proof.
  induction acc as [|[k'' m] acc IH]; [reflexivity|]. cbn [set_count count_of].
  destruct (str_eqb k' k'') eqn:E1; cbn [count_of].
  - apply str_eqb_eq in E1; subst k''. now destruct (str_eqb k k').
  - rewrite IH. destruct (str_eqb k k'') eqn:E2; destruct (str_eqb k k') eqn:E3;
      try reflexivity.
    apply str_eqb_eq in E2, E3. subst k' k''.
    assert (str_eqb k k = true) by now apply str_eqb_eq. congruence.
Qed.

Lemma count_of_fold (k : str) (items : list value) :
  forall acc,
    count_of k
      (fold_left
         (fun acc item =>
            set_count (classKey (get item (lit "class")))
              (count_of (classKey (get item (lit "class"))) acc + 1)%Z acc)
         items acc)
    = (count_of k acc
       + Z.of_nat (length (filter (fun item => str_eqb k (classKey (get item (lit "class"))))
                             items)))%Z.
Proof.
  induction items as [|item items IH]; intro acc; cbn [fold_left filter length]; [lia|].
  rewrite IH, count_of_set.
  destruct (str_eqb k (classKey (get item (lit "class")))) eqn:E; [|reflexivity].
  apply str_eqb_eq in E. rewrite <- E. cbn [length]. lia.
Qed.

Lemma filter_filter (A : Type) (f g : A -> bool) (l : list A) :
  filter f (filter g l) = filter (fun x => g x && f x) l.
Proof.
  induction l as [|a l IH]; [reflexivity|]. cbn [filter].
  destruct (g a); cbn [filter andb]; now rewrite IH.
Qed.

Lemma classKey_eqb (classNum : Z) (class : value) :
  str_eqb (classKey (VNum classNum)) (classKey class)
  = str_eqb (toString class) (decimal classNum).
Proof. rewrite (str_eqb_sym (toString class)). reflexivity. Qed.

Lemma bar_value (classNum : Z) (predictions : list value) :
  count_of (classKey (VNum classNum)) (classCounts predictions)
  = Z.of_nat (length (filter (inClass classNum) predictions)).
Proof.
  unfold classCounts. rewrite count_of_fold, filter_filter. cbn [count_of].
  rewrite Z.add_0_l. do 2 f_equal.
  apply filter_ext. intro item. unfold inClass. now rewrite classKey_eqb.
Qed.

Lemma filter_cons_length (A : Type) (f : A -> bool) (a : A) (l : list A) :
  length (filter f (a :: l)) = ((if f a then 1 else 0) + length (filter f l))%nat.
Proof. cbn [filter]. now destruct (f a). Qed.

Lemma decimal_012 :
  decimal 0 <> decimal 1 /\ decimal 0 <> decimal 2 /\ decimal 1 <> decimal 2.
Proof. repeat split; intro H; vm_compute in H; discriminate H. Qed.

Lemma bars_total (predictions : list value) :
  (length (filter (inClass 0) predictions) + length (filter (inClass 1) predictions)
   + length (filter (inClass 2) predictions)
   <= length (filter classedInhibitor predictions))%nat.
Proof.
  induction predictions as [|item l IH]; [reflexivity|].
  rewrite !filter_cons_length.
  assert (H : ((if inClass 0 item then 1 else 0) + (if inClass 1 item then 1 else 0)
               + (if inClass 2 item then 1 else 0)
               <= (if classedInhibitor item then 1 else 0))%nat); [|lia].
  unfold inClass. destruct (classedInhibitor item); cbn [andb]; [|lia].
  destruct decimal_012 as (D01 & D02 & D12).
  destruct (str_eqb (toString (get item (lit "class"))) (decimal 0)) eqn:E0;
    destruct (str_eqb (toString (get item (lit "class"))) (decimal 1)) eqn:E1;
    destruct (str_eqb (toString (get item (lit "class"))) (decimal 2)) eqn:E2;
    try lia;
    repeat match goal with
           | H : str_eqb _ _ = true |- _ => apply str_eqb_eq in H
           end;
    exfalso; congruence.
Qed.

End BarChart.

(** X10.  For results whose predictions can all be tabulated and keyed,
    the bar chart has the three bars Class 0, Class 1 and Class 2 in this order,
    and the value of a bar is the number of predictions classified
    inhibitor, with a class that is not null, whose class prints as the
    number of the bar.  A decoy or a prediction of another class is in no
    bar: the three values together are at most the number of classed
    inhibitors. *)
Theorem bar_chart_counts
    (fields : list (str * value)) (predictions : list value) :
  lookup (lit "predictions") fields = VArr predictions ->
  forallb rowReadable predictions = true ->
  forallb keyPrints predictions = true ->
  barsOf (VObj fields)
  = Some [(lit "Class 0", Z.of_nat (length (filter (inClass 0) predictions)));
          (lit "Class 1", Z.of_nat (length (filter (inClass 1) predictions)));
          (lit "Class 2", Z.of_nat (length (filter (inClass 2) predictions)))]
  /\ (length (filter (inClass 0) predictions) + length (filter (inClass 1) predictions)
      + length (filter (inClass 2) predictions)
      <= length (filter classedInhibitor predictions)
      <= length predictions)%nat.
Proof.
  intros Hp Hr Hk. split.
  - unfold barsOf. cbn [get truthy andb]. rewrite Hp. cbn [truthy]. rewrite Hr, Hk.
    unfold barChartData. cbn [map andb]. now rewrite !bar_value.
  - split; [apply bars_total | apply filter_length_le].
Qed.

Lemma bar_chart_counts_witness :
  barsOf sampleResults = Some [(lit "Class 0", 2%Z); (lit "Class 1", 0%Z); (lit "Class 2", 1%Z)].
Proof.
  exact (proj1 (bar_chart_counts
                  [(lit "predictions",
                    VArr [prediction (lit "CCC") (lit "inhibitor") (VNum 0) (VNum 12);
                          prediction (lit "CCO") (lit "decoy") VNull VNull;
                          prediction (lit "CNC") (lit "inhibitor") (VNum 2) (VNum 3);
                          prediction (lit "CCN") (lit "inhibitor") (VNum 0) (VNum 40)])]
                  _ eq_refl eq_refl eq_refl)).
Defined.

(** ** A file that cannot be read *)

(** X11.  When the selected file cannot be read, the submission shows the
    words File reading error followed by the reader's detail, clears the
    results and sends no request, whatever the parser and the service would
    have done. *)
Theorem read_failure_reported (env : Env) (st : State) (file : File) (detail : str) :
  selectedFile st = Some file ->
  reader env file = ReadError detail ->
  snd (handleSubmit env st) = []
  /\ inputError (fst (handleSubmit env st)) = lit "File reading error: " ++ detail
  /\ results (fst (handleSubmit env st)) = VNull
  /\ isLoading (fst (handleSubmit env st)) = false.
Proof.
  intros Hsel Hread. rewrite handleSubmit_cases.
  assert (Hc : candidateList env st = Throw (lit "File reading error: " ++ detail)).
  { unfold candidateList, readFileContent. now rewrite Hsel, Hread. }
  rewrite Hc. now repeat split.
Qed.

Lemma read_failure_reported_witness :
  inputError (fst (handleSubmit offline
                     (handleFileChange (Some (mkFile (lit "set.xlsx") [])) initial)))
  = lit "File reading error: ".
Proof.
  exact (proj1 (proj2 (read_failure_reported offline
                         (handleFileChange (Some (mkFile (lit "set.xlsx") [])) initial)
                         (mkFile (lit "set.xlsx") []) [] eq_refl eq_refl))).
Defined.
